(** * goflying/ahrs: the heuristic AHRS estimator (ahrs_heuristic.go)

    A shallow embedding of [InitializeHeuristic] and [HeuristicState.Compute].

    Go's [float64] is IEEE-754 binary64, which is what Rocq's primitive [float]
    is: [+], [-], [*], [/] and [sqrt] below are the correctly rounded binary64
    operations, [=?] is the IEEE comparison Go's [==] performs ([-0 == 0] holds,
    [NaN == NaN] does not).  Every operation is rounded on its own (no fused
    multiply-add), as the Go compiler does on amd64.

    What the file ahrs_heuristic.go uses but does not declare is taken as a
    parameter of the development: the constant [G], the helper
    [QuaternionAToB] and the functions [math.Acos], [math.Cos], [math.Sin].  The
    struct types [Measurement] and [State] are declared elsewhere in package
    ahrs as well; they are given here with the fields this file reads and
    writes. *)

From Stdlib Require Import Floats Bool ZArith List Lia.
Import ListNotations.

#[local] Set Warnings "-inexact-float".
#[local] Open Scope float_scope.
#[local] Open Scope bool_scope.

(** ** Data model *)

(** Modelled from the spec: the type [Measurement] (one timestamped sample),
    with the fields of section 3 of the specification. *)
Module Measurement.
Record t : Set := mk {
  T : float;
  W1 : float; W2 : float; W3 : float; WValid : bool;
  A1 : float; A2 : float; A3 : float;
  M1 : float; M2 : float; M3 : float; MValid : bool
}.
End Measurement.

(** Modelled from the spec: the base type [State] that [HeuristicState]
    embeds: the orientation quaternion [E0..E3], the rotation-matrix elements
    [e11..e33], the north-reference vector [N1..N3] and the last timestamp
    [T]. *)
Module State.
Record t : Set := mk {
  E0 : float; E1 : float; E2 : float; E3 : float;
  e11 : float; e12 : float; e13 : float;
  e21 : float; e22 : float; e23 : float;
  e31 : float; e32 : float; e33 : float;
  N1 : float; N2 : float; N3 : float;
  T : float
}.

Definition set_E (b : t) (x1 x2 x3 x4 : float) : t :=
  {| E0 := x1; E1 := x2; E2 := x3; E3 := x4; e11 := b.(e11); e12 := b.(e12); e13 := b.(e13);
     e21 := b.(e21); e22 := b.(e22); e23 := b.(e23); e31 := b.(e31); e32 := b.(e32);
     e33 := b.(e33); N1 := b.(N1); N2 := b.(N2); N3 := b.(N3); T := b.(T) |}.

Definition set_N (b : t) (x1 x2 x3 : float) : t :=
  {| E0 := b.(E0); E1 := b.(E1); E2 := b.(E2); E3 := b.(E3); e11 := b.(e11); e12 := b.(e12);
     e13 := b.(e13); e21 := b.(e21); e22 := b.(e22); e23 := b.(e23); e31 := b.(e31);
     e32 := b.(e32); e33 := b.(e33); N1 := x1; N2 := x2; N3 := x3; T := b.(T) |}.

Definition set_T (b : t) (x1 : float) : t :=
  {| E0 := b.(E0); E1 := b.(E1); E2 := b.(E2); E3 := b.(E3); e11 := b.(e11); e12 := b.(e12);
     e13 := b.(e13); e21 := b.(e21); e22 := b.(e22); e23 := b.(e23); e31 := b.(e31);
     e32 := b.(e32); e33 := b.(e33); N1 := b.(N1); N2 := b.(N2); N3 := b.(N3); T := x1 |}.

(** Go's zero value of the struct. *)
Definition zero : t := mk 0 0 0 0 0 0 0 0 0 0 0 0 0 0 0 0 0.
End State.

(** [type HeuristicState struct]: the embedded [State], two flags, and the
    filter memory.  A promoted field [s.E0] of the source is
    [s.(State).(State.E0)] here. *)
Record HeuristicState : Set := mkHeuristicState {
  State : State.t;
  Inertial : bool;
  HeadingValid : bool;
  Z1 : float; Z2 : float; Z3 : float;
  W10 : float; W20 : float; W30 : float;
  W1S : float; W2S : float; W3S : float;
  W1L : float; W2L : float; W3L : float;
  A1S : float; A2S : float; A3S : float;
  A1L : float; A2L : float; A3L : float;
  B1S : float; B2S : float; B3S : float;
  B1L : float; B2L : float; B3L : float;
  M1S : float; M2S : float; M3S : float;
  M1L : float; M2L : float; M3L : float
}.

Definition set_State (s : HeuristicState) (b : State.t) : HeuristicState :=
  {| State := b; Inertial := s.(Inertial); HeadingValid := s.(HeadingValid);
     Z1 := s.(Z1); Z2 := s.(Z2); Z3 := s.(Z3); W10 := s.(W10); W20 := s.(W20); W30 := s.(W30);
     W1S := s.(W1S); W2S := s.(W2S); W3S := s.(W3S); W1L := s.(W1L); W2L := s.(W2L);
     W3L := s.(W3L); A1S := s.(A1S); A2S := s.(A2S); A3S := s.(A3S); A1L := s.(A1L);
     A2L := s.(A2L); A3L := s.(A3L); B1S := s.(B1S); B2S := s.(B2S); B3S := s.(B3S);
     B1L := s.(B1L); B2L := s.(B2L); B3L := s.(B3L); M1S := s.(M1S); M2S := s.(M2S);
     M3S := s.(M3S); M1L := s.(M1L); M2L := s.(M2L); M3L := s.(M3L) |}.

Definition set_W0 (s : HeuristicState) (x1 x2 x3 : float) : HeuristicState :=
  {| State := s.(State); Inertial := s.(Inertial); HeadingValid := s.(HeadingValid);
     Z1 := s.(Z1); Z2 := s.(Z2); Z3 := s.(Z3); W10 := x1; W20 := x2; W30 := x3; W1S := s.(W1S);
     W2S := s.(W2S); W3S := s.(W3S); W1L := s.(W1L); W2L := s.(W2L); W3L := s.(W3L);
     A1S := s.(A1S); A2S := s.(A2S); A3S := s.(A3S); A1L := s.(A1L); A2L := s.(A2L);
     A3L := s.(A3L); B1S := s.(B1S); B2S := s.(B2S); B3S := s.(B3S); B1L := s.(B1L);
     B2L := s.(B2L); B3L := s.(B3L); M1S := s.(M1S); M2S := s.(M2S); M3S := s.(M3S);
     M1L := s.(M1L); M2L := s.(M2L); M3L := s.(M3L) |}.

Definition set_WS (s : HeuristicState) (x1 x2 x3 : float) : HeuristicState :=
  {| State := s.(State); Inertial := s.(Inertial); HeadingValid := s.(HeadingValid);
     Z1 := s.(Z1); Z2 := s.(Z2); Z3 := s.(Z3); W10 := s.(W10); W20 := s.(W20); W30 := s.(W30);
     W1S := x1; W2S := x2; W3S := x3; W1L := s.(W1L); W2L := s.(W2L); W3L := s.(W3L);
     A1S := s.(A1S); A2S := s.(A2S); A3S := s.(A3S); A1L := s.(A1L); A2L := s.(A2L);
     A3L := s.(A3L); B1S := s.(B1S); B2S := s.(B2S); B3S := s.(B3S); B1L := s.(B1L);
     B2L := s.(B2L); B3L := s.(B3L); M1S := s.(M1S); M2S := s.(M2S); M3S := s.(M3S);
     M1L := s.(M1L); M2L := s.(M2L); M3L := s.(M3L) |}.

Definition set_Z (s : HeuristicState) (x1 x2 x3 : float) : HeuristicState :=
  {| State := s.(State); Inertial := s.(Inertial); HeadingValid := s.(HeadingValid); Z1 := x1;
     Z2 := x2; Z3 := x3; W10 := s.(W10); W20 := s.(W20); W30 := s.(W30); W1S := s.(W1S);
     W2S := s.(W2S); W3S := s.(W3S); W1L := s.(W1L); W2L := s.(W2L); W3L := s.(W3L);
     A1S := s.(A1S); A2S := s.(A2S); A3S := s.(A3S); A1L := s.(A1L); A2L := s.(A2L);
     A3L := s.(A3L); B1S := s.(B1S); B2S := s.(B2S); B3S := s.(B3S); B1L := s.(B1L);
     B2L := s.(B2L); B3L := s.(B3L); M1S := s.(M1S); M2S := s.(M2S); M3S := s.(M3S);
     M1L := s.(M1L); M2L := s.(M2L); M3L := s.(M3L) |}.

(** [new(HeuristicState)]: Go's zero value, every number [0] and every flag
    [false]. *)
Definition new_HeuristicState : HeuristicState :=
  mkHeuristicState State.zero false false
    0 0 0  0 0 0  0 0 0  0 0 0  0 0 0  0 0 0  0 0 0  0 0 0  0 0 0  0 0 0.

(** ** Constants *)

Definition KSHORT : float := 0.2.
Definition KLONG : float := 0.02.

(** ** The local variables of [Compute], lines 66-120 *)

Record Locals : Set := mkLocals {
  ae1 : float; ae2 : float; ae3 : float;
  q0 : float; q1 : float; q2 : float; q3 : float;
  we1 : float; we2 : float; we3 : float;
  xe1 : float; xe2 : float; xe3 : float;
  u1 : float; u2 : float; u3 : float; uu : float;
  v1 : float; v2 : float; v3 : float; vv : float;
  alpha : float;
  p0 : float; sa : float; p1 : float; p2 : float; p3 : float
}.

Definition Quaternion : Set := (float * float * float * float)%type.

(** ** The estimator *)

Section Estimator.

(** The constant [G] (acceleration of gravity, in the unit of the GPS
    velocities per second), declared elsewhere in package ahrs. *)
Variable G : float.

(** [QuaternionAToB(a1, a2, a3, b1, b2, b3)], declared elsewhere in package
    ahrs: the quaternion of the rotation that takes vector [a] to [b]. *)
Variable QuaternionAToB : float -> float -> float -> float -> float -> float -> Quaternion.

(** [math.Acos], [math.Cos], [math.Sin] of Go's library. *)
Variables Acos Cos Sin : float -> float.

(** [func InitializeHeuristic(m *Measurement) (s *HeuristicState)] *)
Definition InitializeHeuristic (m : Measurement.t) : HeuristicState :=
  new_HeuristicState.

(** Lines 36-41: on startup the previous velocity is seeded. *)
Definition startup (s : HeuristicState) (m : Measurement.t) : HeuristicState :=
  if (s.(W10) =? 0) && (s.(W20) =? 0) && (s.(W30) =? 0)
  then set_W0 s m.(Measurement.W1) m.(Measurement.W2) m.(Measurement.W3)
  else s.

(** Lines 44-46: the short-term moving averages. *)
Definition moving_averages (s : HeuristicState) (m : Measurement.t) : HeuristicState :=
  set_WS s
    (KSHORT * m.(Measurement.W1) + (1 - KSHORT) * s.(W1S))
    (KSHORT * m.(Measurement.W2) + (1 - KSHORT) * s.(W2S))
    (KSHORT * m.(Measurement.W3) + (1 - KSHORT) * s.(W3S)).

(** Lines 50-52: the accelerations from successive GPS velocities. *)
Definition accelerations (s : HeuristicState) (m : Measurement.t) : HeuristicState :=
  set_Z s
    (KSHORT * (m.(Measurement.W1) - s.(W10)) / (m.(Measurement.T) - s.(State).(State.T)) / G
     + (1 - KSHORT) * s.(Z1))
    (KSHORT * (m.(Measurement.W2) - s.(W20)) / (m.(Measurement.T) - s.(State).(State.T)) / G
     + (1 - KSHORT) * s.(Z2))
    (KSHORT * (m.(Measurement.W3) - s.(W30)) / (m.(Measurement.T) - s.(State).(State.T)) / G
     + (1 - KSHORT) * s.(Z3)).

(** Lines 54-62: the [else] branch. *)
Definition reset (s : HeuristicState) : HeuristicState :=
  set_Z (set_WS (set_W0 s 0 0 0) 0 0 0) 0 0 0.

(** Lines 35-63. *)
Definition smoothing (s : HeuristicState) (m : Measurement.t) : HeuristicState :=
  if m.(Measurement.WValid)
  then accelerations (moving_averages (startup s m) m) m
  else reset s.

(** Lines 66-120, on the state [s] that [smoothing] left. *)
Definition locals (s : HeuristicState) (m : Measurement.t) : Locals :=
  let ae1 := - s.(Z1) in
  let ae2 := - s.(Z2) in
  let ae3 := - s.(Z3) - 1 in
  let '(q0, q1, q2, q3) :=
    QuaternionAToB ae1 ae2 ae3 m.(Measurement.A1) m.(Measurement.A2) m.(Measurement.A3) in
  let '(we1, we2, we3) :=
    if m.(Measurement.WValid)
    then
      let ww := sqrt (s.(W1S) * s.(W1S) + s.(W2S) * s.(W2S) + s.(W3S) * s.(W3S)) in
      (s.(W1S) / ww, s.(W2S) / ww, s.(W3S) / ww)
    else (0, 1, 0) in
  let xe1 := 1 - 2 * (q3 * q3 + q2 * q2) in
  let xe2 := 2 * (q0 * q3 + q1 * q2) in
  let xe3 := 2 * (q1 * q3 - q0 * q2) in
  let u1 := ae2 * xe3 - ae3 * xe2 in
  let u2 := ae3 * xe1 - ae1 * xe3 in
  let u3 := ae1 * xe2 - ae2 * xe1 in
  let uu := sqrt (u1 * u1 + u2 * u2 + u3 * u3) in
  let u1 := u1 / uu in
  let u2 := u2 / uu in
  let u3 := u3 / uu in
  let v1 := ae2 * we3 - ae3 * we2 in
  let v2 := ae3 * we1 - ae1 * we3 in
  let v3 := ae1 * we2 - ae2 * we1 in
  let vv := sqrt (u1 * u1 + u2 * u2 + u3 * u3) in
  let v1 := v1 / vv in
  let v2 := v2 / vv in
  let v3 := v3 / vv in
  let alpha := Acos (u1 * v1 + u2 * v2 + u3 * v3) in
  let p0 := Cos (alpha / 2) in
  let sa := Sin (alpha / 2) in
  let p1 := sa * ae1 in
  let p2 := sa * ae2 in
  let p3 := sa * ae3 in
  mkLocals ae1 ae2 ae3 q0 q1 q2 q3 we1 we2 we3 xe1 xe2 xe3
           u1 u2 u3 uu v1 v2 v3 vv alpha p0 sa p1 p2 p3.

(** Lines 122-125: the orientation written to [s.E0 .. s.E3]. *)
Definition orientation (l : Locals) : Quaternion :=
  (l.(p0) * l.(q0) - l.(p1) * l.(q1) - l.(p2) * l.(p2) - l.(p3) * l.(q3),
   l.(p0) * l.(q1) + l.(p1) * l.(q0) + l.(p2) * l.(q3) - l.(p3) * l.(q2),
   l.(p0) * l.(q2) - l.(p1) * l.(q3) + l.(p2) * l.(q0) + l.(p3) * l.(q1),
   l.(p0) * l.(q3) + l.(p1) * l.(q2) - l.(p2) * l.(q1) + l.(p3) * l.(q0)).

(** Lines 133-137: the magnetic field in the earth frame. *)
Definition magnetic (s : HeuristicState) (m : Measurement.t) : HeuristicState :=
  if m.(Measurement.MValid)
  then
    let b := s.(State) in
    set_State s (State.set_N b
      (m.(Measurement.M1) * b.(State.e11) + m.(Measurement.M2) * b.(State.e12)
       + m.(Measurement.M3) * b.(State.e13))
      (m.(Measurement.M1) * b.(State.e21) + m.(Measurement.M2) * b.(State.e22)
       + m.(Measurement.M3) * b.(State.e23))
      (m.(Measurement.M1) * b.(State.e31) + m.(Measurement.M2) * b.(State.e32)
       + m.(Measurement.M3) * b.(State.e33)))
  else s.

(** [func (s *HeuristicState) Compute(m *Measurement)]: the state the call
    leaves in [*s]. *)
Definition Compute (s : HeuristicState) (m : Measurement.t) : HeuristicState :=
  let s := smoothing s m in
  let l := locals s m in
  let '(E0, E1, E2, E3) := orientation l in
  let s := set_State s (State.set_E s.(State) E0 E1 E2 E3) in
  let s := set_W0 s m.(Measurement.W1) m.(Measurement.W2) m.(Measurement.W3) in
  let s := set_State s (State.set_T s.(State) m.(Measurement.T)) in
  magnetic s m.

(** A host's loop: [Compute] on each measurement in turn; the list holds the
    state after each call. *)
Fixpoint run (s : HeuristicState) (ms : list Measurement.t) : list HeuristicState :=
  match ms with
  | [] => []
  | m :: ms' => let s' := Compute s m in s' :: run s' ms'
  end.

End Estimator.

(** ** The accessors *)

(** [func (s *HeuristicState) Valid() (ok bool)] *)
Definition Valid (s : HeuristicState) : bool := true.

(** [func (s *HeuristicState) CalcRollPitchHeadingUncertainty()]: the three
    named results are returned as Go initialised them. *)
Definition CalcRollPitchHeadingUncertainty (s : HeuristicState) : float * float * float :=
  (0, 0, 0).

Section Accessors.

(** [FromQuaternion(q0, q1, q2, q3)], declared elsewhere in package ahrs: roll,
    pitch and heading of a quaternion. *)
Variable FromQuaternion : float -> float -> float -> float -> float * float * float.

(** [func (s *HeuristicState) CalcRollPitchHeading()] *)
Definition CalcRollPitchHeading (s : HeuristicState) : float * float * float :=
  FromQuaternion s.(State).(State.E0) s.(State).(State.E1)
                 s.(State).(State.E2) s.(State).(State.E3).

End Accessors.

(** ** Notions the specification speaks of *)

Definition Vector : Set := (float * float * float)%type.

(** The orientation quaternion held in a state. *)
Definition E_of (s : HeuristicState) : Quaternion :=
  (s.(State).(State.E0), s.(State).(State.E1), s.(State).(State.E2), s.(State).(State.E3)).

(** The north-reference vector held in a state. *)
Definition N_of (s : HeuristicState) : Vector :=
  (s.(State).(State.N1), s.(State).(State.N2), s.(State).(State.N3)).

(** The heading-correction quaternion [p] and the gravity-alignment quaternion
    [q] among the locals. *)
Definition p_of (l : Locals) : Quaternion := (l.(p0), l.(p1), l.(p2), l.(p3)).
Definition q_of (l : Locals) : Quaternion := (l.(q0), l.(q1), l.(q2), l.(q3)).
Definition ae_of (l : Locals) : Vector := (l.(ae1), l.(ae2), l.(ae3)).
Definition we_of (l : Locals) : Vector := (l.(we1), l.(we2), l.(we3)).
Definition xe_of (l : Locals) : Vector := (l.(xe1), l.(xe2), l.(xe3)).
Definition u_of (l : Locals) : Vector := (l.(u1), l.(u2), l.(u3)).
Definition v_of (l : Locals) : Vector := (l.(v1), l.(v2), l.(v3)).

(** The standard Hamilton product of [p] and [q], as the specification words it. *)
Definition hamilton (p q : Quaternion) : Quaternion :=
  let '(a0, a1, a2, a3) := p in
  let '(b0, b1, b2, b3) := q in
  (a0 * b0 - a1 * b1 - a2 * b2 - a3 * b3,
   a0 * b1 + a1 * b0 + a2 * b3 - a3 * b2,
   a0 * b2 - a1 * b3 + a2 * b0 + a3 * b1,
   a0 * b3 + a1 * b2 - a2 * b1 + a3 * b0).

Definition scalar_part (q : Quaternion) : float := let '(a0, _, _, _) := q in a0.
Definition vector_part (q : Quaternion) : Vector := let '(_, a1, a2, a3) := q in (a1, a2, a3).

Definition norm4 (q : Quaternion) : float :=
  let '(a0, a1, a2, a3) := q in sqrt (a0 * a0 + a1 * a1 + a2 * a2 + a3 * a3).

Definition cross (a b : Vector) : Vector :=
  let '(a1, a2, a3) := a in
  let '(b1, b2, b3) := b in
  (a2 * b3 - a3 * b2, a3 * b1 - a1 * b3, a1 * b2 - a2 * b1).

Definition norm3 (a : Vector) : float :=
  let '(a1, a2, a3) := a in sqrt (a1 * a1 + a2 * a2 + a3 * a3).

(** A vector divided by a scalar, and by its own Euclidean norm. *)
Definition scale_down (a : Vector) (k : float) : Vector :=
  let '(a1, a2, a3) := a in (a1 / k, a2 / k, a3 / k).

Definition normalized (a : Vector) : Vector := scale_down a (norm3 a).

(** The rotation-matrix elements held in a state, row by row. *)
Definition e_of (s : HeuristicState) : Vector * Vector * Vector :=
  let b := s.(State) in
  ((b.(State.e11), b.(State.e12), b.(State.e13)),
   (b.(State.e21), b.(State.e22), b.(State.e23)),
   (b.(State.e31), b.(State.e32), b.(State.e33))).

(** The flags and the accumulators of the long-term and multi-signal
    averages. *)
Definition reserved (s : HeuristicState) : bool * bool * list float :=
  (s.(Inertial), s.(HeadingValid),
   [s.(W1L); s.(W2L); s.(W3L); s.(A1S); s.(A2S); s.(A3S); s.(A1L); s.(A2L); s.(A3L);
    s.(B1S); s.(B2S); s.(B3S); s.(B1L); s.(B2L); s.(B3L);
    s.(M1S); s.(M2S); s.(M3S); s.(M1L); s.(M2L); s.(M3L)]).

(** The filter memory that [Compute] reads back on the next call: the
    smoothed accelerations, the previous velocity, the smoothed velocity and
    the reference time. *)
Definition memory (s : HeuristicState) : list float :=
  [s.(Z1); s.(Z2); s.(Z3); s.(W10); s.(W20); s.(W30); s.(W1S); s.(W2S); s.(W3S);
   s.(State).(State.T)].

(** The [k]-th exponential average, [k < 6]: [Z1, Z2, Z3, W1S, W2S, W3S]. *)
Definition average (k : nat) (s : HeuristicState) : float :=
  nth k [s.(Z1); s.(Z2); s.(Z3); s.(W1S); s.(W2S); s.(W3S)] 0.

(** Go's test [x == 0 && y == 0 && z == 0] of line 36. *)
Definition is_zero_vector (x y z : float) : bool := (x =? 0) && (y =? 0) && (z =? 0).

(** A vector, and a matrix, whose components all compare equal to zero. *)
Definition is_zero3 (a : Vector) : bool :=
  let '(a1, a2, a3) := a in is_zero_vector a1 a2 a3.

Definition is_zero33 (e : Vector * Vector * Vector) : bool :=
  let '(r1, r2, r3) := e in is_zero3 r1 && is_zero3 r2 && is_zero3 r3.

(** The magnetometer components of a measurement are finite numbers. *)
Definition finite_magnetometer (m : Measurement.t) : bool :=
  is_finite m.(Measurement.M1) && is_finite m.(Measurement.M2)
  && is_finite m.(Measurement.M3).

(** A measurement with its magnetometer block replaced. *)
Definition with_magnetometer (m : Measurement.t) (x1 x2 x3 : float) (valid : bool)
  : Measurement.t :=
  {| Measurement.T := m.(Measurement.T);
     Measurement.W1 := m.(Measurement.W1); Measurement.W2 := m.(Measurement.W2);
     Measurement.W3 := m.(Measurement.W3); Measurement.WValid := m.(Measurement.WValid);
     Measurement.A1 := m.(Measurement.A1); Measurement.A2 := m.(Measurement.A2);
     Measurement.A3 := m.(Measurement.A3);
     Measurement.M1 := x1; Measurement.M2 := x2; Measurement.M3 := x3;
     Measurement.MValid := valid |}.

(** ** A concrete choice of the collaborators and some inputs

    The theorems below hold for every [G], [QuaternionAToB], [Acos], [Cos] and
    [Sin]; evaluating [Compute] on an example needs one choice of them. *)

(** Standard gravity. *)
Definition G_sample : float := 9.80665.

(** Modelled from the spec: [QuaternionAToB], "the minimal-rotation quaternion
    mapping one 3-vector onto another": the normalised quaternion of scalar
    part [|a||b| + a.b] and vector part [a x b]. *)
Definition QuaternionAToB_sample (a1 a2 a3 b1 b2 b3 : float) : Quaternion :=
  let aa := sqrt (a1 * a1 + a2 * a2 + a3 * a3) in
  let bb := sqrt (b1 * b1 + b2 * b2 + b3 * b3) in
  let r0 := aa * bb + (a1 * b1 + a2 * b2 + a3 * b3) in
  let r1 := a2 * b3 - a3 * b2 in
  let r2 := a3 * b1 - a1 * b3 in
  let r3 := a1 * b2 - a2 * b1 in
  let rr := sqrt (r0 * r0 + r1 * r1 + r2 * r2 + r3 * r3) in
  (r0 / rr, r1 / rr, r2 / rr, r3 / rr).

(** [math.Pi] as a [float64], and the two values of [cos] at [math.Pi/2] that
    implementations return: Go's portable [math.Cos], and the correctly
    rounded one. *)
Definition Pi : float := 0x1.921fb54442d18p+1.
Definition cos_half_pi_go : float := 6.123233995736757e-17.
Definition cos_half_pi_rounded : float := 6.123233995736766e-17.

(** The values of [math.Acos], [math.Cos] and [math.Sin] at the arguments the
    examples reach; any other argument is not tabulated. *)
Definition Acos_sample (x : float) : float :=
  if x =? 1 then 0 else if x =? -1 then Pi else if x =? 0 then Pi / 2 else nan.

Definition Cos_sample (x : float) : float :=
  if x =? 0 then 1 else if x =? Pi / 2 then cos_half_pi_go else nan.

Definition Sin_sample (x : float) : float :=
  if x =? 0 then 0 else if x =? Pi / 2 then 1 else nan.

Definition Compute_sample : HeuristicState -> Measurement.t -> HeuristicState :=
  Compute G_sample QuaternionAToB_sample Acos_sample Cos_sample Sin_sample.

(** A measurement without magnetometer data. *)
Definition sample (T W1 W2 W3 : float) (WValid : bool) (A1 A2 A3 : float) : Measurement.t :=
  Measurement.mk T W1 W2 W3 WValid A1 A2 A3 0 0 0 false.

(** Level and at rest, GPS velocity flagged invalid but not zero. *)
Definition m_invalid : Measurement.t := sample 1 1 0 0 false 0 0 (-1).

(** First valid sample: unit velocity along the first axis. *)
Definition m_first : Measurement.t := sample 1 1 0 0 true 0 0 (-1).

(** First valid sample, climbing: velocity [(3, 0, 4)]. *)
Definition m_climb : Measurement.t := sample 1 3 0 4 true 0 0 (-1).

(** A first valid sample with an infinite velocity component. *)
Definition m_infinite : Measurement.t := sample 1 infinity 0 0 true 0 0 (-1).

(** A state in a sustained manoeuvre: velocity [(-1, 0, 0)] held, smoothed
    acceleration [(0, -1.25, -1.25)], and the next sample, with the same
    velocity and the accelerometer reading [(0, 1, 0)]. *)
Definition s_turn : HeuristicState :=
  set_Z (set_WS (set_W0 new_HeuristicState (-1) 0 0) (-1) 0 0) 0 (-1.25) (-1.25).

Definition m_turn : Measurement.t := sample 1 (-1) 0 0 true 0 1 0.

(** A state with every field set, and a sample with magnetometer data. *)
Definition s_busy : HeuristicState :=
  mkHeuristicState
    (State.mk 1 0 0 0  1 0 0 0 1 0 0 0 1  0.5 0.25 0.125  10)
    true true
    0.5 0.25 0.125  3 4 5  6 7 8
    1 1 1  1 1 1  1 1 1  1 1 1  1 1 1  1 1 1  1 1 1.

Definition m_mag : Measurement.t :=
  Measurement.mk 11 3 4 5 false 0 0 (-1) 0.25 0.5 0.125 true.

(** Each measurement of the list is stamped with a time whose difference
    with the time before it ([t] for the first) is neither NaN nor zero. *)
Fixpoint distinct_times (t : float) (ms : list Measurement.t) : bool :=
  match ms with
  | [] => true
  | m :: ms' =>
      let dT := m.(Measurement.T) - t in
      negb (is_nan dT) && negb (dT =? 0) && distinct_times m.(Measurement.T) ms'
  end.

(** The sample after [m_climb], one time unit later, at the same velocity. *)
Definition m_climb_next : Measurement.t := sample 2 3 0 4 true 0 0 (-1).

(** A measurement with its magnetometer block blanked. *)
Definition without_magnetometer (m : Measurement.t) : Measurement.t :=
  with_magnetometer m 0 0 0 false.

(** A first valid sample stamped with the time [0] of a fresh estimator. *)
Definition m_same_time : Measurement.t := sample 0 1 0 0 true 0 0 (-1).

(** [s_turn] with another orientation and north vector. *)
Definition s_turn_rotated : HeuristicState :=
  set_State s_turn (State.set_N (State.set_E (State s_turn) 1 0 0 0) 1 2 3).

(** A state whose smoothed acceleration along the first axis is NaN. *)
Definition s_nan : HeuristicState := set_Z s_busy nan 0 0.

(** Roll, pitch and heading stood for by the vector part of the
    quaternion. *)
Definition FromQuaternion_sample (a0 a1 a2 a3 : float) : float * float * float :=
  (a1, a2, a3).

(** ** Facts of binary64 arithmetic *)

(** The constant expression [1 - KSHORT] of the source is the [float64]
    nearest to 0.8, and so is the rounded difference. *)
Lemma one_minus_KSHORT : 1 - KSHORT = 0.8.
Proof. reflexivity. Qed.

(** A finite number minus itself is [+0]. *)
Lemma sub_diag_finite (x : float) : is_finite x = true -> x - x = 0.
Proof.
  intro H. apply Prim2SF_inj. rewrite sub_spec.
  unfold is_finite, is_nan, is_infinity in H.
  rewrite !FloatAxioms.eqb_spec, abs_spec in H.
  change (Prim2SF 0) with (S754_zero false).
  change (Prim2SF infinity) with (S754_infinity false) in H.
  destruct (Prim2SF x) as [sx | sx | | sx mx ex].
  - destruct sx; reflexivity.
  - destruct sx; discriminate H.
  - discriminate H.
  - unfold SF64sub, SFsub.
    replace (IntDef.Z.min ex ex) with ex by (symmetry; apply Z.min_id).
    unfold shl_align.
    replace (IntDef.Z.sub ex ex) with 0%Z by (symmetry; apply Z.sub_diag).
    cbn [fst].
    replace (IntDef.Z.sub (cond_Zopp sx (Z.pos mx)) (cond_Zopp sx (Z.pos mx))) with 0%Z
      by (symmetry; apply Z.sub_diag).
    reflexivity.
Qed.

(** Go's [x == 0] holds of the two zeros only. *)
Lemma eqb_zero_cases (x : float) : (x =? 0) = true -> x = 0 \/ x = -0.
Proof.
  intro H. rewrite FloatAxioms.eqb_spec in H.
  change (Prim2SF 0) with (S754_zero false) in H.
  destruct (Prim2SF x) as [sx | sx | | sx mx ex] eqn:E.
  - destruct sx; [right | left]; apply Prim2SF_inj; rewrite E; reflexivity.
  - destruct sx; discriminate H.
  - discriminate H.
  - destruct sx; discriminate H.
Qed.

(** ** What [Compute] writes, field by field *)

Section Frame.

Variable G : float.
Variable QuaternionAToB : float -> float -> float -> float -> float -> float -> Quaternion.
Variables Acos Cos Sin : float -> float.

#[local] Abbreviation Compute' := (Compute G QuaternionAToB Acos Cos Sin).
#[local] Abbreviation locals' := (locals QuaternionAToB Acos Cos Sin).
#[local] Abbreviation smoothing' := (smoothing G).

Ltac open_Compute :=
  intros; unfold Compute, magnetic, orientation, E_of, N_of;
  match goal with
  | |- context [Measurement.MValid ?m] => destruct (Measurement.MValid m)
  end; reflexivity.

Lemma Compute_Z s m :
  Z1 (Compute' s m) = Z1 (smoothing' s m) /\
  Z2 (Compute' s m) = Z2 (smoothing' s m) /\
  Z3 (Compute' s m) = Z3 (smoothing' s m).
Proof. repeat split; open_Compute. Qed.

Lemma Compute_WS s m :
  W1S (Compute' s m) = W1S (smoothing' s m) /\
  W2S (Compute' s m) = W2S (smoothing' s m) /\
  W3S (Compute' s m) = W3S (smoothing' s m).
Proof. repeat split; open_Compute. Qed.

Lemma Compute_W0 s m :
  W10 (Compute' s m) = Measurement.W1 m /\
  W20 (Compute' s m) = Measurement.W2 m /\
  W30 (Compute' s m) = Measurement.W3 m.
Proof. repeat split; open_Compute. Qed.

Lemma Compute_T s m : State.T (State (Compute' s m)) = Measurement.T m.
Proof. open_Compute. Qed.

Lemma Compute_E s m : E_of (Compute' s m) = orientation (locals' (smoothing' s m) m).
Proof. open_Compute. Qed.

Lemma smoothing_State s m : State (smoothing' s m) = State s.
Proof.
  unfold smoothing, accelerations, moving_averages, startup, reset.
  destruct (Measurement.WValid m); [ | reflexivity ].
  destruct ((W10 s =? 0) && (W20 s =? 0) && (W30 s =? 0)); reflexivity.
Qed.

Lemma Compute_N s m :
  N_of (Compute' s m) =
  if Measurement.MValid m
  then
    (Measurement.M1 m * State.e11 (State s) + Measurement.M2 m * State.e12 (State s)
     + Measurement.M3 m * State.e13 (State s),
     Measurement.M1 m * State.e21 (State s) + Measurement.M2 m * State.e22 (State s)
     + Measurement.M3 m * State.e23 (State s),
     Measurement.M1 m * State.e31 (State s) + Measurement.M2 m * State.e32 (State s)
     + Measurement.M3 m * State.e33 (State s))
  else N_of s.
Proof.
  unfold Compute, magnetic, orientation, N_of.
  destruct (Measurement.MValid m); cbn; rewrite smoothing_State; reflexivity.
Qed.

End Frame.

(** Two floats are told apart by their IEEE decompositions. *)
Ltac floats_differ :=
  let H := fresh "H" in
  intro H; apply (f_equal Prim2SF) in H; vm_compute in H; discriminate H.

(** ** Initialisation *)

(** C10: [InitializeHeuristic] ignores its measurement: for every [m] it
    returns the state whose numeric fields are all [0] and whose flags are
    [false]; in particular the orientation is the zero quaternion, of norm
    [0] and not [1], and the reference time is [0]. *)
Theorem InitializeHeuristic_all_zero (m : Measurement.t) :
  InitializeHeuristic m =
    mkHeuristicState
      (State.mk 0 0 0 0  0 0 0 0 0 0 0 0 0  0 0 0  0) false false
      0 0 0  0 0 0  0 0 0  0 0 0  0 0 0  0 0 0  0 0 0  0 0 0  0 0 0  0 0 0 /\
  E_of (InitializeHeuristic m) = (0, 0, 0, 0) /\
  norm4 (E_of (InitializeHeuristic m)) = 0 /\
  norm4 (E_of (InitializeHeuristic m)) <> 1 /\
  State.T (State (InitializeHeuristic m)) = 0.
Proof.
  repeat split; try reflexivity.
  floats_differ.
Qed.

(** ** The velocity and acceleration memory *)

Section Smoothing.

Variable G : float.
Variable QuaternionAToB : float -> float -> float -> float -> float -> float -> Quaternion.
Variables Acos Cos Sin : float -> float.

#[local] Abbreviation Compute' := (Compute G QuaternionAToB Acos Cos Sin).

(** C4: when [WValid] is false, [Z1..Z3] and [W1S..W3S] are exactly zero after
    [Compute], whatever they were before. *)
Theorem Compute_invalid_velocity_zeroes (s : HeuristicState) (m : Measurement.t) :
  Measurement.WValid m = false ->
  Z1 (Compute' s m) = 0 /\ Z2 (Compute' s m) = 0 /\ Z3 (Compute' s m) = 0 /\
  W1S (Compute' s m) = 0 /\ W2S (Compute' s m) = 0 /\ W3S (Compute' s m) = 0.
Proof.
  intro Hw.
  destruct (Compute_Z G QuaternionAToB Acos Cos Sin s m) as (-> & -> & ->).
  destruct (Compute_WS G QuaternionAToB Acos Cos Sin s m) as (-> & -> & ->).
  unfold smoothing. rewrite Hw. repeat split; reflexivity.
Qed.

(** C5 (what the code does): [Compute] ends by storing the velocity of the
    measurement in [W10, W20, W30], whether [WValid] or not; on the sample
    [m_invalid], whose [WValid] is false, [W10] is [1] after the call and Go's
    test [s.W10 == 0] fails. *)
Theorem Compute_invalid_velocity_previous (s : HeuristicState) :
  Measurement.WValid m_invalid = false /\
  W10 (Compute' s m_invalid) = 1 /\
  (W10 (Compute' s m_invalid) =? 0) = false /\
  is_zero_vector (W10 (Compute' s m_invalid)) (W20 (Compute' s m_invalid))
                 (W30 (Compute' s m_invalid)) = false.
Proof.
  destruct (Compute_W0 G QuaternionAToB Acos Cos Sin s m_invalid) as (-> & -> & ->).
  repeat split; reflexivity.
Qed.

(** C6 (amended): when [WValid] is true, each smoothed velocity becomes
    [KSHORT * W_new + (1 - KSHORT) * W_S] and each smoothed acceleration
    [KSHORT * (W_new - W_prev) / (T_new - T_prev) / G + (1 - KSHORT) * Z], with
    [KSHORT = 0.2] and [1 - KSHORT = 0.8], where [T_prev] is the stored [T] and
    [W_prev] is the stored [W10/W20/W30], unless these three are all zero at
    entry: then [W_prev] is the velocity of the measurement itself. *)
Theorem Compute_valid_velocity_update (s : HeuristicState) (m : Measurement.t) :
  Measurement.WValid m = true ->
  let fresh := is_zero_vector (W10 s) (W20 s) (W30 s) in
  let dT := Measurement.T m - State.T (State s) in
  KSHORT = 0.2 /\ 1 - KSHORT = 0.8 /\
  W1S (Compute' s m) = KSHORT * Measurement.W1 m + (1 - KSHORT) * W1S s /\
  W2S (Compute' s m) = KSHORT * Measurement.W2 m + (1 - KSHORT) * W2S s /\
  W3S (Compute' s m) = KSHORT * Measurement.W3 m + (1 - KSHORT) * W3S s /\
  Z1 (Compute' s m) =
    KSHORT * (Measurement.W1 m - (if fresh then Measurement.W1 m else W10 s)) / dT / G
    + (1 - KSHORT) * Z1 s /\
  Z2 (Compute' s m) =
    KSHORT * (Measurement.W2 m - (if fresh then Measurement.W2 m else W20 s)) / dT / G
    + (1 - KSHORT) * Z2 s /\
  Z3 (Compute' s m) =
    KSHORT * (Measurement.W3 m - (if fresh then Measurement.W3 m else W30 s)) / dT / G
    + (1 - KSHORT) * Z3 s.
Proof.
  intros Hw fresh dT. subst fresh dT.
  destruct (Compute_Z G QuaternionAToB Acos Cos Sin s m) as (-> & -> & ->).
  destruct (Compute_WS G QuaternionAToB Acos Cos Sin s m) as (-> & -> & ->).
  unfold smoothing, accelerations, moving_averages, startup, is_zero_vector.
  rewrite Hw.
  destruct ((W10 s =? 0) && (W20 s =? 0) && (W30 s =? 0)); repeat split; reflexivity.
Qed.

(** C7 (amended): when [WValid] is true, the stored previous velocity is the
    zero vector at entry and the three velocity components of the measurement
    are finite, the previous velocity is seeded with the velocity of the
    measurement, each difference [W_new - W_prev] is exactly [0], and each [Z]
    is updated with a zero finite difference. *)
Theorem Compute_startup_seeds (s : HeuristicState) (m : Measurement.t) :
  Measurement.WValid m = true ->
  is_zero_vector (W10 s) (W20 s) (W30 s) = true ->
  is_finite (Measurement.W1 m) = true ->
  is_finite (Measurement.W2 m) = true ->
  is_finite (Measurement.W3 m) = true ->
  let dT := Measurement.T m - State.T (State s) in
  W10 (startup s m) = Measurement.W1 m /\
  W20 (startup s m) = Measurement.W2 m /\
  W30 (startup s m) = Measurement.W3 m /\
  Measurement.W1 m - W10 (startup s m) = 0 /\
  Measurement.W2 m - W20 (startup s m) = 0 /\
  Measurement.W3 m - W30 (startup s m) = 0 /\
  Z1 (Compute' s m) = KSHORT * 0 / dT / G + (1 - KSHORT) * Z1 s /\
  Z2 (Compute' s m) = KSHORT * 0 / dT / G + (1 - KSHORT) * Z2 s /\
  Z3 (Compute' s m) = KSHORT * 0 / dT / G + (1 - KSHORT) * Z3 s.
Proof.
  intros Hw Hz F1 F2 F3 dT. subst dT.
  destruct (Compute_Z G QuaternionAToB Acos Cos Sin s m) as (-> & -> & ->).
  unfold smoothing, accelerations, moving_averages, startup.
  unfold is_zero_vector in Hz. rewrite Hw, Hz. cbn.
  rewrite (sub_diag_finite _ F1), (sub_diag_finite _ F2), (sub_diag_finite _ F3).
  repeat split; reflexivity.
Qed.

End Smoothing.

(** ** The magnetometer block and replays *)

Section Magnetic.

Variable G : float.
Variable QuaternionAToB : float -> float -> float -> float -> float -> float -> Quaternion.
Variables Acos Cos Sin : float -> float.

#[local] Abbreviation Compute' := (Compute G QuaternionAToB Acos Cos Sin).
#[local] Abbreviation run' := (run G QuaternionAToB Acos Cos Sin).

(** The orientation is a function of the state and of the measurement with
    its magnetometer block left out. *)
Lemma smoothing_ignores_magnetometer s m x1 x2 x3 valid :
  smoothing G s (with_magnetometer m x1 x2 x3 valid) = smoothing G s m.
Proof. reflexivity. Qed.

Lemma locals_ignores_magnetometer s m x1 x2 x3 valid :
  locals QuaternionAToB Acos Cos Sin s (with_magnetometer m x1 x2 x3 valid) =
  locals QuaternionAToB Acos Cos Sin s m.
Proof. reflexivity. Qed.

Lemma Compute_E_ignores_magnetometer s m x1 x2 x3 valid :
  E_of (Compute' s (with_magnetometer m x1 x2 x3 valid)) = E_of (Compute' s m).
Proof.
  rewrite !Compute_E.
  now rewrite smoothing_ignores_magnetometer, locals_ignores_magnetometer.
Qed.

(** [Compute] reads the rotation-matrix elements and never writes them. *)
Lemma Compute_e s m : e_of (Compute' s m) = e_of s.
Proof.
  unfold Compute, magnetic, orientation, e_of.
  destruct (Measurement.MValid m); cbn; rewrite smoothing_State; reflexivity.
Qed.

(** Lines 133-137 as they are: when [MValid] is false [Compute] leaves
    [N1, N2, N3] as they were; when it is true they become the magnetometer
    vector [(M1, M2, M3)] multiplied by the elements [e11..e33] that the state
    held at entry, which [Compute] leaves unchanged; and the orientation [E]
    that [Compute] stores does not depend on the magnetometer block of the
    measurement. *)
Lemma Compute_magnetic_projection (s : HeuristicState) (m : Measurement.t) :
  N_of (Compute' s m) =
    (if Measurement.MValid m
     then
       (Measurement.M1 m * State.e11 (State s) + Measurement.M2 m * State.e12 (State s)
        + Measurement.M3 m * State.e13 (State s),
        Measurement.M1 m * State.e21 (State s) + Measurement.M2 m * State.e22 (State s)
        + Measurement.M3 m * State.e23 (State s),
        Measurement.M1 m * State.e31 (State s) + Measurement.M2 m * State.e32 (State s)
        + Measurement.M3 m * State.e33 (State s))
     else N_of s) /\
  e_of (Compute' s m) = e_of s /\
  (forall x1 x2 x3 valid,
     E_of (Compute' s (with_magnetometer m x1 x2 x3 valid)) = E_of (Compute' s m)).
Proof.
  split; [ apply Compute_N | split ].
  - apply Compute_e.
  - intros. apply Compute_E_ignores_magnetometer.
Qed.

Lemma run_length s ms : length (run' s ms) = length ms.
Proof.
  revert s. induction ms as [ | m ms IH ]; intro s; cbn.
  - reflexivity.
  - now rewrite IH.
Qed.

(** The states of a replay depend on the measurements seen so far only. *)
Lemma run_app s ms ms' :
  run' s (ms ++ ms') = run' s ms ++ run' (fold_left Compute' ms s) ms'.
Proof.
  revert s. induction ms as [ | m ms IH ]; intro s.
  - reflexivity.
  - cbn [app run fold_left]. rewrite IH. reflexivity.
Qed.

Lemma run_prefix s ms ms' : firstn (length ms) (run' s (ms ++ ms')) = run' s ms.
Proof.
  rewrite run_app, <- (run_length s ms), firstn_app, Nat.sub_diag, firstn_all.
  cbn [firstn]. apply app_nil_r.
Qed.

End Magnetic.

(** With [MValid] true, [N] is the magnetometer vector times the nine
    elements the state held at entry. *)
Lemma Compute_N_of_e G QuaternionAToB Acos Cos Sin s m a11 a12 a13 a21 a22 a23 a31 a32 a33 :
  Measurement.MValid m = true ->
  e_of s = ((a11, a12, a13), (a21, a22, a23), (a31, a32, a33)) ->
  N_of (Compute G QuaternionAToB Acos Cos Sin s m) =
    (Measurement.M1 m * a11 + Measurement.M2 m * a12 + Measurement.M3 m * a13,
     Measurement.M1 m * a21 + Measurement.M2 m * a22 + Measurement.M3 m * a23,
     Measurement.M1 m * a31 + Measurement.M2 m * a32 + Measurement.M3 m * a33).
Proof.
  intros Hv He. rewrite Compute_N, Hv. unfold e_of in He.
  injection He as H11 H12 H13 H21 H22 H23 H31 H32 H33.
  rewrite H11, H12, H13, H21, H22, H23, H31, H32, H33. reflexivity.
Qed.

(** C8 (what the code does): the elements [e11..e33] that lines 134-136
    multiply the magnetometer vector by are not derived from [E]: [Compute]
    never assigns them, and the [N] it stores is the same whatever
    [QuaternionAToB], [Acos], [Cos], [Sin] and [G], from which [E] is built,
    return.  On a freshly initialised estimator and the sample [m_mag], whose
    [MValid] is true and whose magnetometer vector is [(0.25, 0.5, 0.125)],
    the elements are still all zero after the call and [N] is [(0, 0, 0)],
    and so again after a second call. *)
Theorem Compute_north_not_from_orientation
  (G G' : float)
  (QuaternionAToB QuaternionAToB' :
     float -> float -> float -> float -> float -> float -> Quaternion)
  (Acos Acos' Cos Cos' Sin Sin' : float -> float) (m0 : Measurement.t) :
  let s1 := Compute G QuaternionAToB Acos Cos Sin (InitializeHeuristic m0) m_mag in
  let s2 := Compute G QuaternionAToB Acos Cos Sin s1 m_mag in
  Measurement.MValid m_mag = true /\
  (Measurement.M1 m_mag, Measurement.M2 m_mag, Measurement.M3 m_mag) = (0.25, 0.5, 0.125) /\
  e_of s1 = ((0, 0, 0), (0, 0, 0), (0, 0, 0)) /\ N_of s1 = (0, 0, 0) /\
  e_of s2 = ((0, 0, 0), (0, 0, 0), (0, 0, 0)) /\ N_of s2 = (0, 0, 0) /\
  (forall s m,
     e_of (Compute G QuaternionAToB Acos Cos Sin s m) = e_of s /\
     N_of (Compute G QuaternionAToB Acos Cos Sin s m) =
     N_of (Compute G' QuaternionAToB' Acos' Cos' Sin' s m)).
Proof.
  intros s1 s2.
  assert (He1 : e_of s1 = ((0, 0, 0), (0, 0, 0), (0, 0, 0)))
    by (unfold s1; rewrite Compute_e; reflexivity).
  assert (He2 : e_of s2 = ((0, 0, 0), (0, 0, 0), (0, 0, 0)))
    by (unfold s2; rewrite Compute_e; exact He1).
  split; [ reflexivity | ]. split; [ reflexivity | ].
  split; [ exact He1 | ]. split.
  { unfold s1.
    rewrite (Compute_N_of_e G QuaternionAToB Acos Cos Sin (InitializeHeuristic m0) m_mag
               0 0 0 0 0 0 0 0 0 eq_refl eq_refl).
    reflexivity. }
  split; [ exact He2 | ]. split.
  { unfold s2.
    rewrite (Compute_N_of_e G QuaternionAToB Acos Cos Sin s1 m_mag
               0 0 0 0 0 0 0 0 0 eq_refl He1).
    reflexivity. }
  intros s m. split; [ apply Compute_e | ].
  rewrite !Compute_N. reflexivity.
Qed.

(** ** The orientation written by [Compute] *)

Section Orientation.

Variable G : float.
Variable QuaternionAToB : float -> float -> float -> float -> float -> float -> Quaternion.
Variables Acos Cos Sin : float -> float.

#[local] Abbreviation Compute' := (Compute G QuaternionAToB Acos Cos Sin).
#[local] Abbreviation locals' := (locals QuaternionAToB Acos Cos Sin).
#[local] Abbreviation smoothing' := (smoothing G).

(** The last three components of the stored orientation are those of the
    Hamilton product of [p] and [q]; the first one has [p2 * p2] where the
    product has [p2 * q2]. *)
Lemma Compute_E_components s m :
  let l := locals' (smoothing' s m) m in
  scalar_part (E_of (Compute' s m)) =
    p0 l * q0 l - p1 l * q1 l - p2 l * p2 l - p3 l * q3 l /\
  scalar_part (hamilton (p_of l) (q_of l)) =
    p0 l * q0 l - p1 l * q1 l - p2 l * q2 l - p3 l * q3 l /\
  vector_part (E_of (Compute' s m)) = vector_part (hamilton (p_of l) (q_of l)).
Proof.
  intro l. rewrite Compute_E. fold l. repeat split; reflexivity.
Qed.

(** [u] is the cross product of [ae] and [xe] divided by its own norm; [v] is
    the cross product of [ae] and [we] divided by [vv], the norm of the
    normalised [u]. *)
Lemma locals_u_v s m :
  let l := locals' s m in
  uu l = norm3 (cross (ae_of l) (xe_of l)) /\
  u_of l = normalized (cross (ae_of l) (xe_of l)) /\
  vv l = norm3 (u_of l) /\
  v_of l = scale_down (cross (ae_of l) (we_of l)) (norm3 (u_of l)).
Proof.
  intro l. assert (Hl : l = locals' s m) by reflexivity.
  clearbody l. revert Hl. unfold locals.
  destruct (QuaternionAToB _ _ _ _ _ _) as [[[a0 a1] a2] a3].
  destruct (Measurement.WValid m); intros ->; repeat split; reflexivity.
Qed.

(** [Compute] stores the velocity and the time of the measurement. *)
Lemma Compute_saves s m :
  W10 (Compute' s m) = Measurement.W1 m /\
  W20 (Compute' s m) = Measurement.W2 m /\
  W30 (Compute' s m) = Measurement.W3 m /\
  State.T (State (Compute' s m)) = Measurement.T m.
Proof.
  destruct (Compute_W0 G QuaternionAToB Acos Cos Sin s m) as (-> & -> & ->).
  rewrite Compute_T. repeat split; reflexivity.
Qed.

(** [Compute] leaves the flags and the accumulators it has no use for as
    they were. *)
Lemma startup_reserved s m : reserved (startup s m) = reserved s.
Proof.
  unfold startup. destruct ((W10 s =? 0) && (W20 s =? 0) && (W30 s =? 0)); reflexivity.
Qed.

Lemma smoothing_reserved s m : reserved (smoothing' s m) = reserved s.
Proof.
  unfold smoothing. destruct (Measurement.WValid m); [ | reflexivity ].
  transitivity (reserved (startup s m)); [ reflexivity | apply startup_reserved ].
Qed.

Lemma magnetic_reserved s m : reserved (magnetic s m) = reserved s.
Proof. unfold magnetic. destruct (Measurement.MValid m); reflexivity. Qed.

Lemma Compute_reserved s m : reserved (Compute' s m) = reserved s.
Proof.
  unfold Compute, orientation. rewrite magnetic_reserved.
  transitivity (reserved (smoothing' s m)); [ reflexivity | apply smoothing_reserved ].
Qed.

End Orientation.

(** ** A sustained manoeuvre: the state [s_turn] and the sample [m_turn]

    What the collaborators return at the arguments this call reaches is
    stated as hypotheses: [G] is such that [0 / G] is a zero;
    [QuaternionAToB] maps a vector to itself by the identity rotation (up to
    the signs of the zero components); [math.Acos(-1)] is [math.Pi];
    [math.Sin(math.Pi/2)] is [1]; and [math.Cos(math.Pi/2)] is the value of
    Go's portable implementation or the correctly rounded one. *)

Section Turn.

Variable G : float.
Variable QuaternionAToB : float -> float -> float -> float -> float -> float -> Quaternion.
Variables Acos Cos Sin : float -> float.
Variables z1 z2 z3 : float.

Hypothesis G_divides_zero : (0 / G =? 0) = true.
Hypothesis z1_zero : (z1 =? 0) = true.
Hypothesis z2_zero : (z2 =? 0) = true.
Hypothesis z3_zero : (z3 =? 0) = true.
Hypothesis QuaternionAToB_same : QuaternionAToB (-0) 1 0 0 1 0 = (1, z1, z2, z3).
Hypothesis Acos_minus_one : Acos (-1) = Pi.
Hypothesis Cos_half_pi :
  Cos (Pi / 2) = cos_half_pi_go \/ Cos (Pi / 2) = cos_half_pi_rounded.
Hypothesis Sin_half_pi : Sin (Pi / 2) = 1.

#[local] Abbreviation Compute' := (Compute G QuaternionAToB Acos Cos Sin).
#[local] Abbreviation locals' := (locals QuaternionAToB Acos Cos Sin).

Lemma smoothing_turn : smoothing G s_turn m_turn = set_Z s_turn 0 (-1) (-1).
Proof.
  cbv. destruct (eqb_zero_cases _ G_divides_zero) as [E | E]; rewrite E; cbv; reflexivity.
Qed.

(** The whole call, evaluated. *)
Lemma Compute_turn :
  let s' := Compute' s_turn m_turn in
  let l := locals' (smoothing G s_turn m_turn) m_turn in
  ae_of l = (-0, 1, 0) /\ q_of l = (1, z1, z2, z3) /\ we_of l = (-1, 0, 0) /\
  uu l = 1 /\ vv l = 1 /\ alpha l = Pi /\
  p_of l = (Cos (Pi / 2), -0, 1, 0) /\
  norm3 (ae_of l) = 1 /\ norm4 (p_of l) = 1 /\ norm4 (q_of l) = 1 /\
  scalar_part (E_of s') = -0.99999999999999989 /\
  (abs (scalar_part (hamilton (p_of l) (q_of l))) <? 1e-16) = true /\
  norm4 (E_of s') = 1.4142135623730949.
Proof.
  intros s' l.
  assert (HE : E_of s' = orientation l) by apply Compute_E.
  rewrite HE. clear HE s'. subst l. rewrite smoothing_turn.
  set (l := locals' _ _).
  pose proof QuaternionAToB_same as HQ. pose proof Acos_minus_one as HA.
  pose proof Sin_half_pi as HS. pose proof Cos_half_pi as HC.
  destruct (eqb_zero_cases _ z1_zero) as [E1 | E1]; rewrite E1 in HQ |- *;
  destruct (eqb_zero_cases _ z2_zero) as [E2 | E2]; rewrite E2 in HQ |- *;
  destruct (eqb_zero_cases _ z3_zero) as [E3 | E3]; rewrite E3 in HQ |- *;
  destruct HC as [HC | HC].
  all: cbv in HQ, HA, HS, HC.
  all: eassert (Hl : l = _)
    by (subst l; cbv; rewrite HQ; cbv; rewrite HA; cbv; rewrite HS, HC; reflexivity).
  all: rewrite Hl; cbv; rewrite HC.
  all: repeat split; reflexivity.
Qed.

(** C1 (what the code does): on [s_turn] and [m_turn] nothing is degenerate
    (the apparent gravity [ae] has norm 1, the norms [uu] and [vv] that the
    code divides by are 1, and [p] and [q] are unit quaternions), and the
    orientation that [Compute] stores has norm 1.4142135623730949, not 1. *)
Theorem Compute_turn_norm :
  let s' := Compute' s_turn m_turn in
  let l := locals' (smoothing G s_turn m_turn) m_turn in
  Measurement.T m_turn - State.T (State s_turn) = 1 /\
  norm3 (ae_of l) = 1 /\ uu l = 1 /\ vv l = 1 /\
  norm4 (p_of l) = 1 /\ norm4 (q_of l) = 1 /\
  norm4 (E_of s') = 1.4142135623730949 /\
  (0.41 <? norm4 (E_of s') - 1) = true.
Proof.
  intros s' l.
  destruct Compute_turn as (_ & _ & _ & Hu & Hv & _ & _ & Ha & Hp & Hq & _ & _ & HE).
  fold s' in HE. fold l in Hu, Hv, Ha, Hp, Hq.
  rewrite HE. repeat split; try assumption; reflexivity.
Qed.

(** C2 (what the code does): on [s_turn] and [m_turn], with [p] and [q] as
    found by the call, the first component of the stored orientation is
    -0.99999999999999989, whereas that of the Hamilton product of [p] and
    [q] is below 1e-16; the other three components are those of the
    product. *)
Theorem Compute_turn_scalar_part :
  let s' := Compute' s_turn m_turn in
  let l := locals' (smoothing G s_turn m_turn) m_turn in
  p_of l = (Cos (Pi / 2), -0, 1, 0) /\ q_of l = (1, z1, z2, z3) /\
  scalar_part (E_of s') = -0.99999999999999989 /\
  (abs (scalar_part (hamilton (p_of l) (q_of l))) <? 1e-16) = true /\
  scalar_part (E_of s') <> scalar_part (hamilton (p_of l) (q_of l)) /\
  vector_part (E_of s') = vector_part (hamilton (p_of l) (q_of l)).
Proof.
  intros s' l.
  destruct Compute_turn as (_ & Hq & _ & _ & _ & _ & Hp & _ & _ & _ & HE & HH & _).
  fold s' in HE. fold l in Hp, Hq, HH.
  split; [ assumption | ]. split; [ assumption | ]. split; [ assumption | ].
  split; [ assumption | ]. split.
  - intro Heq. rewrite <- Heq, HE in HH. vm_compute in HH. discriminate HH.
  - apply (Compute_E_components G QuaternionAToB Acos Cos Sin s_turn m_turn).
Qed.

End Turn.

(** ** A first sample while climbing: the fresh state and [m_climb] *)

Section Climb.

Variable G : float.
Variable QuaternionAToB : float -> float -> float -> float -> float -> float -> Quaternion.
Variables Acos Cos Sin : float -> float.
Variables z1 z2 z3 : float.

Hypothesis G_divides_zero : (0 / G =? 0) = true.
Hypothesis z1_zero : (z1 =? 0) = true.
Hypothesis z2_zero : (z2 =? 0) = true.
Hypothesis z3_zero : (z3 =? 0) = true.
Hypothesis QuaternionAToB_same : QuaternionAToB (-0) (-0) (-1) 0 0 (-1) = (1, z1, z2, z3).

#[local] Abbreviation locals' := (locals QuaternionAToB Acos Cos Sin).

Lemma smoothing_climb :
  smoothing G new_HeuristicState m_climb =
  set_WS (set_W0 new_HeuristicState 3 0 4) 0.60000000000000009 0 0.8.
Proof.
  cbv. destruct (eqb_zero_cases _ G_divides_zero) as [E | E]; rewrite E; cbv; reflexivity.
Qed.

(** C3 (what the code does): on the fresh state and [m_climb], [u] is the
    cross product of [ae] and [xe] divided by its own norm, but [v] is the
    cross product of [ae] and [we], of norm 0.60000000000000009, divided by
    [vv = 1], the norm of the normalised [u]: [v] is [(0, -0.6.., 0)] and not
    the unit vector [(0, -1, 0)]. *)
Theorem locals_climb_v :
  let l := locals' (smoothing G new_HeuristicState m_climb) m_climb in
  ae_of l = (-0, -0, -1) /\ we_of l = (0.60000000000000009, 0, 0.8) /\
  u_of l = normalized (cross (ae_of l) (xe_of l)) /\
  cross (ae_of l) (we_of l) = (0, -0.60000000000000009, 0) /\
  norm3 (cross (ae_of l) (we_of l)) = 0.60000000000000009 /\
  norm3 (u_of l) = 1 /\ vv l = 1 /\
  v_of l = (0, -0.60000000000000009, 0) /\
  normalized (cross (ae_of l) (we_of l)) = (0, -1, 0) /\
  v_of l <> normalized (cross (ae_of l) (we_of l)).
Proof.
  intro l. subst l. rewrite smoothing_climb.
  set (l := locals' _ _).
  pose proof QuaternionAToB_same as HQ.
  destruct (eqb_zero_cases _ z1_zero) as [E1 | E1]; rewrite E1 in HQ;
  destruct (eqb_zero_cases _ z2_zero) as [E2 | E2]; rewrite E2 in HQ;
  destruct (eqb_zero_cases _ z3_zero) as [E3 | E3]; rewrite E3 in HQ.
  all: cbv in HQ.
  all: eassert (Hl : l = _) by (subst l; cbv; rewrite HQ; cbv; reflexivity).
  all: rewrite Hl; cbv.
  all: repeat (split; [ reflexivity | ]).
  all: intro H; apply (f_equal (fun w : Vector => Prim2SF (snd (fst w)))) in H;
    vm_compute in H; discriminate H.
Qed.

End Climb.

(** ** Further properties of [Compute] *)

Section Further.

Variable G : float.
Variable QuaternionAToB : float -> float -> float -> float -> float -> float -> Quaternion.
Variables Acos Cos Sin : float -> float.

#[local] Abbreviation Compute' := (Compute G QuaternionAToB Acos Cos Sin).
#[local] Abbreviation locals' := (locals QuaternionAToB Acos Cos Sin).
#[local] Abbreviation smoothing' := (smoothing G).

(** X1: for every state and measurement, the last three components of the
    orientation that [Compute] stores are those of the Hamilton product of [p]
    and [q], and the first one is [p0*q0 - p1*q1 - p2*p2 - p3*q3], where the
    Hamilton product has [p2*q2]. *)
Theorem Compute_orientation_formula (s : HeuristicState) (m : Measurement.t) :
  let l := locals' (smoothing' s m) m in
  scalar_part (E_of (Compute' s m)) =
    p0 l * q0 l - p1 l * q1 l - p2 l * p2 l - p3 l * q3 l /\
  scalar_part (hamilton (p_of l) (q_of l)) =
    p0 l * q0 l - p1 l * q1 l - p2 l * q2 l - p3 l * q3 l /\
  vector_part (E_of (Compute' s m)) = vector_part (hamilton (p_of l) (q_of l)).
Proof. apply Compute_E_components. Qed.

(** X2: for every state and measurement, [u] is the cross product of [ae] and
    [xe] divided by its own norm, [vv] is the norm of that normalised [u], and
    [v] is the cross product of [ae] and [we] divided by [vv]. *)
Theorem Compute_heading_vectors (s : HeuristicState) (m : Measurement.t) :
  let l := locals' (smoothing' s m) m in
  uu l = norm3 (cross (ae_of l) (xe_of l)) /\
  u_of l = normalized (cross (ae_of l) (xe_of l)) /\
  vv l = norm3 (u_of l) /\
  v_of l = scale_down (cross (ae_of l) (we_of l)) (norm3 (u_of l)).
Proof. apply locals_u_v. Qed.

(** X3: [Compute] changes neither the flags [Inertial] and [HeadingValid] nor
    the accumulators [W1L .. M3L]. *)
Theorem Compute_keeps_reserved (s : HeuristicState) (m : Measurement.t) :
  reserved (Compute' s m) = reserved s.
Proof. apply Compute_reserved. Qed.

(** X4: after every call, valid velocity or not, [W10, W20, W30] hold the
    velocity of the measurement and [T] its time. *)
Theorem Compute_stores_sample (s : HeuristicState) (m : Measurement.t) :
  W10 (Compute' s m) = Measurement.W1 m /\
  W20 (Compute' s m) = Measurement.W2 m /\
  W30 (Compute' s m) = Measurement.W3 m /\
  State.T (State (Compute' s m)) = Measurement.T m.
Proof. apply Compute_saves. Qed.


(** X6: when [WValid] is false, the apparent gravity is [(-0, -0, -1)] and the
    reference heading is the fixed direction [(0, 1, 0)]. *)
Theorem Compute_invalid_velocity_heading (s : HeuristicState) (m : Measurement.t) :
  Measurement.WValid m = false ->
  let l := locals' (smoothing' s m) m in
  ae_of l = (- 0, - 0, -1) /\ we_of l = (0, 1, 0).
Proof.
  intros Hw l. assert (Hl : l = locals' (smoothing' s m) m) by reflexivity.
  clearbody l. revert Hl. unfold locals, smoothing. rewrite Hw.
  destruct (QuaternionAToB _ _ _ _ _ _) as [[[a0 a1] a2] a3].
  intros ->. split; reflexivity.
Qed.

End Further.

(** ** Instances on the sample inputs *)

(** On [s_busy], whose rotation-matrix elements are those of the identity,
    the sample [m_mag] leaves its magnetometer vector in [N1, N2, N3]. *)
Example Compute_magnetic_example :
  Measurement.MValid m_mag = true /\
  N_of s_busy = (0.5, 0.25, 0.125) /\
  N_of (Compute_sample s_busy m_mag) = (0.25, 0.5, 0.125) /\
  N_of (Compute_sample s_busy (with_magnetometer m_mag 0.25 0.5 0.125 false))
  = (0.5, 0.25, 0.125).
Proof. repeat split; vm_compute; reflexivity. Qed.

Lemma Compute_invalid_velocity_zeroes_witness :
  Measurement.WValid m_invalid = false /\
  Z1 s_busy = 0.5 /\ W1S s_busy = 6 /\
  Z1 (Compute_sample s_busy m_invalid) = 0 /\ Z2 (Compute_sample s_busy m_invalid) = 0 /\
  Z3 (Compute_sample s_busy m_invalid) = 0 /\ W1S (Compute_sample s_busy m_invalid) = 0 /\
  W2S (Compute_sample s_busy m_invalid) = 0 /\ W3S (Compute_sample s_busy m_invalid) = 0.
Proof.
  split; [ reflexivity | ]. split; [ reflexivity | ]. split; [ reflexivity | ].
  apply (Compute_invalid_velocity_zeroes G_sample QuaternionAToB_sample
           Acos_sample Cos_sample Sin_sample s_busy m_invalid).
  reflexivity.
Defined.

(** C6 (as stated, refuted): from the fresh state the first valid sample
    [m_first], of velocity [(1, 0, 0)] at time [1], leaves [Z1 = 0], not the
    [0.2 * (1 - 0) / (1 - 0) / G + 0.8 * 0] that the stored [W10 = 0] would
    give. *)
Lemma Compute_valid_velocity_update_counterexample :
  Measurement.WValid m_first = true /\
  Z1 (Compute_sample new_HeuristicState m_first) = 0 /\
  Z1 (Compute_sample new_HeuristicState m_first) <>
    KSHORT * (Measurement.W1 m_first - W10 new_HeuristicState)
    / (Measurement.T m_first - State.T (State new_HeuristicState)) / G_sample
    + (1 - KSHORT) * Z1 new_HeuristicState.
Proof.
  split; [ reflexivity | ]. split; [ vm_compute; reflexivity | ].
  floats_differ.
Qed.

Lemma Compute_valid_velocity_update_witness :
  Measurement.WValid m_turn = true /\
  W1S (Compute_sample s_turn m_turn) = -1 /\
  Z2 (Compute_sample s_turn m_turn) = -1.
Proof.
  split; [ reflexivity | ].
  destruct (Compute_valid_velocity_update G_sample QuaternionAToB_sample
              Acos_sample Cos_sample Sin_sample s_turn m_turn eq_refl)
    as (_ & _ & H1 & _ & _ & _ & H2 & _).
  unfold Compute_sample.
  split; [ rewrite H1 | rewrite H2 ]; vm_compute; reflexivity.
Defined.

(** C7 (as stated, refuted): with an infinite velocity component on the first
    valid sample, the seeded difference [W_new - W_prev] is not zero (it is
    NaN), and so is the acceleration [Z1] that [Compute] leaves. *)
Lemma Compute_startup_seeds_counterexample :
  Measurement.WValid m_infinite = true /\
  is_zero_vector (W10 new_HeuristicState) (W20 new_HeuristicState)
                 (W30 new_HeuristicState) = true /\
  W10 (startup new_HeuristicState m_infinite) = Measurement.W1 m_infinite /\
  Measurement.W1 m_infinite - W10 (startup new_HeuristicState m_infinite) <> 0 /\
  is_nan (Z1 (Compute_sample new_HeuristicState m_infinite)) = true.
Proof.
  split; [ reflexivity | ]. split; [ reflexivity | ]. split; [ reflexivity | ].
  split; [ floats_differ | vm_compute; reflexivity ].
Qed.

Lemma Compute_startup_seeds_witness :
  Measurement.WValid m_first = true /\
  is_zero_vector (W10 new_HeuristicState) (W20 new_HeuristicState)
                 (W30 new_HeuristicState) = true /\
  Measurement.W1 m_first - W10 (startup new_HeuristicState m_first) = 0 /\
  Z1 (Compute_sample new_HeuristicState m_first) = 0.
Proof.
  split; [ reflexivity | ]. split; [ reflexivity | ].
  destruct (Compute_startup_seeds G_sample QuaternionAToB_sample
              Acos_sample Cos_sample Sin_sample new_HeuristicState m_first
              eq_refl eq_refl eq_refl eq_refl eq_refl)
    as (_ & _ & _ & H1 & _ & _ & H2 & _).
  unfold Compute_sample.
  split; [ exact H1 | rewrite H2; vm_compute; reflexivity ].
Defined.

Lemma Compute_turn_norm_witness :
  (0 / G_sample =? 0) = true /\
  QuaternionAToB_sample (- 0) 1 0 0 1 0 = (1, 0, 0, - 0) /\
  Acos_sample (-1) = Pi /\
  Cos_sample (Pi / 2) = cos_half_pi_go /\
  Sin_sample (Pi / 2) = 1 /\
  norm4 (E_of (Compute_sample s_turn m_turn)) = 1.4142135623730949.
Proof.
  assert (HQ : QuaternionAToB_sample (- 0) 1 0 0 1 0 = (1, 0, 0, - 0)) by reflexivity.
  split; [ reflexivity | ]. split; [ exact HQ | ]. split; [ reflexivity | ].
  split; [ reflexivity | ]. split; [ reflexivity | ].
  apply (Compute_turn_norm G_sample QuaternionAToB_sample Acos_sample Cos_sample Sin_sample
           0 0 (- 0) eq_refl eq_refl eq_refl eq_refl HQ eq_refl (or_introl eq_refl) eq_refl).
Defined.

Lemma Compute_turn_scalar_part_witness :
  (0 / G_sample =? 0) = true /\
  QuaternionAToB_sample (- 0) 1 0 0 1 0 = (1, 0, 0, - 0) /\
  Acos_sample (-1) = Pi /\
  Cos_sample (Pi / 2) = cos_half_pi_go /\
  Sin_sample (Pi / 2) = 1 /\
  scalar_part (E_of (Compute_sample s_turn m_turn)) = -0.99999999999999989.
Proof.
  assert (HQ : QuaternionAToB_sample (- 0) 1 0 0 1 0 = (1, 0, 0, - 0)) by reflexivity.
  split; [ reflexivity | ]. split; [ exact HQ | ]. split; [ reflexivity | ].
  split; [ reflexivity | ]. split; [ reflexivity | ].
  apply (Compute_turn_scalar_part G_sample QuaternionAToB_sample Acos_sample Cos_sample
           Sin_sample 0 0 (- 0) eq_refl eq_refl eq_refl eq_refl HQ eq_refl
           (or_introl eq_refl) eq_refl).
Defined.

Lemma locals_climb_v_witness :
  (0 / G_sample =? 0) = true /\
  QuaternionAToB_sample (- 0) (- 0) (-1) 0 0 (-1) = (1, 0, - 0, 0) /\
  v_of (locals QuaternionAToB_sample Acos_sample Cos_sample Sin_sample
          (smoothing G_sample new_HeuristicState m_climb) m_climb)
  = (0, -0.60000000000000009, 0).
Proof.
  assert (HQ : QuaternionAToB_sample (- 0) (- 0) (-1) 0 0 (-1) = (1, 0, - 0, 0))
    by reflexivity.
  split; [ reflexivity | ]. split; [ exact HQ | ].
  apply (locals_climb_v G_sample QuaternionAToB_sample Acos_sample Cos_sample Sin_sample
           0 (- 0) 0 eq_refl eq_refl eq_refl eq_refl HQ).
Defined.

Lemma Compute_invalid_velocity_heading_witness :
  Measurement.WValid m_invalid = false /\
  we_of (locals QuaternionAToB_sample Acos_sample Cos_sample Sin_sample
           (smoothing G_sample s_busy m_invalid) m_invalid) = (0, 1, 0).
Proof.
  split; [ reflexivity | ].
  apply (Compute_invalid_velocity_heading G_sample QuaternionAToB_sample
           Acos_sample Cos_sample Sin_sample s_busy m_invalid eq_refl).
Defined.

(** ** More facts of binary64 arithmetic: NaN and zeros *)

Lemma is_nan_Prim2SF (x : float) : is_nan x = true <-> Prim2SF x = S754_nan.
Proof.
  unfold is_nan. rewrite FloatAxioms.eqb_spec. unfold SFeqb, SFcompare.
  destruct (Prim2SF x) as [sx | sx | | sx mx ex].
  - split; discriminate.
  - destruct sx; split; discriminate.
  - split; reflexivity.
  - replace (IntDef.Z.compare ex ex) with Eq by (symmetry; apply Z.compare_refl).
    replace (PosDef.Pos.compare_cont Eq mx mx) with Eq
      by (symmetry; apply Pos.compare_cont_refl).
    destruct sx; split; discriminate.
Qed.

Lemma add_nan_l (x y : float) : is_nan x = true -> is_nan (x + y) = true.
Proof. rewrite !is_nan_Prim2SF, add_spec. intros ->. reflexivity. Qed.

Lemma add_nan_r (x y : float) : is_nan y = true -> is_nan (x + y) = true.
Proof.
  rewrite !is_nan_Prim2SF, add_spec. intros ->.
  destruct (Prim2SF x) as [sx | sx | | sx mx ex]; reflexivity.
Qed.

Lemma mul_nan_r (x y : float) : is_nan y = true -> is_nan (x * y) = true.
Proof.
  rewrite !is_nan_Prim2SF, mul_spec. intros ->.
  destruct (Prim2SF x) as [sx | sx | | sx mx ex]; reflexivity.
Qed.

Lemma div_nan_l (x y : float) : is_nan x = true -> is_nan (x / y) = true.
Proof. rewrite !is_nan_Prim2SF, div_spec. intros ->. reflexivity. Qed.

Lemma is_finite_Prim2SF (x : float) :
  is_finite x = true ->
  (exists s, Prim2SF x = S754_zero s) \/ (exists s m e, Prim2SF x = S754_finite s m e).
Proof.
  unfold is_finite, is_infinity. intro H.
  destruct (is_nan x) eqn:Hn; [ discriminate H | ].
  rewrite FloatAxioms.eqb_spec, abs_spec in H.
  change (Prim2SF infinity) with (S754_infinity false) in H.
  assert (Hn' : Prim2SF x <> S754_nan).
  { intro E. apply is_nan_Prim2SF in E. congruence. }
  destruct (Prim2SF x) as [sx | sx | | sx mx ex].
  - left; eauto.
  - destruct sx; discriminate H.
  - congruence.
  - right; eauto.
Qed.

(** A finite number times a zero is a zero. *)
Lemma mul_zero_r_finite (x z : float) :
  is_finite x = true -> (z =? 0) = true -> (x * z =? 0) = true.
Proof.
  intros Hx Hz. rewrite FloatAxioms.eqb_spec, mul_spec.
  rewrite FloatAxioms.eqb_spec in Hz.
  change (Prim2SF 0) with (S754_zero false) in *.
  destruct (is_finite_Prim2SF x Hx) as [[s ->] | (s & m & e & ->)];
    destruct (Prim2SF z) as [sz | sz | | sz mz ez]; try discriminate Hz;
    try (destruct sz; discriminate Hz); reflexivity.
Qed.

(** The sum of two zeros is a zero. *)
Lemma add_zeros (x y : float) : (x =? 0) = true -> (y =? 0) = true -> (x + y =? 0) = true.
Proof.
  intros Hx Hy.
  destruct (eqb_zero_cases x Hx) as [-> | ->], (eqb_zero_cases y Hy) as [-> | ->];
    reflexivity.
Qed.

(** ** The filter memory decides what follows *)

Section Memory.

Variable G : float.
Variable QuaternionAToB : float -> float -> float -> float -> float -> float -> Quaternion.
Variables Acos Cos Sin : float -> float.
Variable FromQuaternion : float -> float -> float -> float -> float * float * float.

#[local] Abbreviation Compute' := (Compute G QuaternionAToB Acos Cos Sin).
#[local] Abbreviation locals' := (locals QuaternionAToB Acos Cos Sin).
#[local] Abbreviation smoothing' := (smoothing G).
#[local] Abbreviation run' := (run G QuaternionAToB Acos Cos Sin).
#[local] Abbreviation attitude := (CalcRollPitchHeading FromQuaternion).

Lemma memory_fields a b :
  memory a = memory b ->
  (Z1 a = Z1 b /\ Z2 a = Z2 b /\ Z3 a = Z3 b) /\
  (W10 a = W10 b /\ W20 a = W20 b /\ W30 a = W30 b) /\
  (W1S a = W1S b /\ W2S a = W2S b /\ W3S a = W3S b) /\
  State.T (State a) = State.T (State b).
Proof.
  unfold memory. intro H.
  repeat split;
    [ apply (f_equal (fun l => nth 0 l 0)) in H | apply (f_equal (fun l => nth 1 l 0)) in H
    | apply (f_equal (fun l => nth 2 l 0)) in H | apply (f_equal (fun l => nth 3 l 0)) in H
    | apply (f_equal (fun l => nth 4 l 0)) in H | apply (f_equal (fun l => nth 5 l 0)) in H
    | apply (f_equal (fun l => nth 6 l 0)) in H | apply (f_equal (fun l => nth 7 l 0)) in H
    | apply (f_equal (fun l => nth 8 l 0)) in H | apply (f_equal (fun l => nth 9 l 0)) in H ];
    exact H.
Qed.

(** The locals read the smoothed accelerations and velocities of the state,
    and nothing else of it. *)
Lemma locals_ext a b m :
  Z1 a = Z1 b -> Z2 a = Z2 b -> Z3 a = Z3 b ->
  W1S a = W1S b -> W2S a = W2S b -> W3S a = W3S b ->
  locals' a m = locals' b m.
Proof.
  intros H1 H2 H3 H4 H5 H6. unfold locals.
  rewrite H1, H2, H3, H4, H5, H6. reflexivity.
Qed.

Lemma smoothing_memory a b m :
  memory a = memory b -> memory (smoothing' a m) = memory (smoothing' b m).
Proof.
  intro H.
  destruct (memory_fields a b H)
    as ((Hz1 & Hz2 & Hz3) & (Hw1 & Hw2 & Hw3) & (Hs1 & Hs2 & Hs3) & HT).
  unfold smoothing, accelerations, moving_averages, startup, reset.
  rewrite Hw1, Hw2, Hw3.
  destruct (Measurement.WValid m);
    [ destruct ((W10 b =? 0) && (W20 b =? 0) && (W30 b =? 0)) | ];
    unfold memory, set_Z, set_WS, set_W0;
    cbn [Z1 Z2 Z3 W10 W20 W30 W1S W2S W3S State];
    rewrite ?Hz1, ?Hz2, ?Hz3, ?Hw1, ?Hw2, ?Hw3, ?Hs1, ?Hs2, ?Hs3, ?HT; reflexivity.
Qed.

Lemma Compute_memory s m :
  memory (Compute' s m) =
  [Z1 (smoothing' s m); Z2 (smoothing' s m); Z3 (smoothing' s m);
   Measurement.W1 m; Measurement.W2 m; Measurement.W3 m;
   W1S (smoothing' s m); W2S (smoothing' s m); W3S (smoothing' s m);
   Measurement.T m].
Proof.
  unfold memory.
  destruct (Compute_Z G QuaternionAToB Acos Cos Sin s m) as (-> & -> & ->).
  destruct (Compute_WS G QuaternionAToB Acos Cos Sin s m) as (-> & -> & ->).
  destruct (Compute_W0 G QuaternionAToB Acos Cos Sin s m) as (-> & -> & ->).
  rewrite Compute_T. reflexivity.
Qed.

(** One call: equal memories before give equal memories and equal
    orientations after. *)
Lemma Compute_memory_ext a b m :
  memory a = memory b ->
  memory (Compute' a m) = memory (Compute' b m) /\
  E_of (Compute' a m) = E_of (Compute' b m).
Proof.
  intro H. apply (smoothing_memory a b m) in H.
  destruct (memory_fields _ _ H)
    as ((Hz1 & Hz2 & Hz3) & _ & (Hs1 & Hs2 & Hs3) & _).
  split.
  - rewrite !Compute_memory, Hz1, Hz2, Hz3, Hs1, Hs2, Hs3. reflexivity.
  - rewrite !Compute_E. f_equal. now apply locals_ext.
Qed.

Lemma attitude_E a b : E_of a = E_of b -> attitude a = attitude b.
Proof.
  unfold E_of, CalcRollPitchHeading. intro H.
  assert (H0 := f_equal scalar_part H).
  assert (Hv := f_equal vector_part H). cbn in H0, Hv.
  assert (H1 := f_equal (fun w : Vector => fst (fst w)) Hv).
  assert (H2 := f_equal (fun w : Vector => snd (fst w)) Hv).
  assert (H3 := f_equal (fun w : Vector => snd w) Hv). cbn in H1, H2, H3.
  now rewrite H0, H1, H2, H3.
Qed.

End Memory.

(** Two states with the same components are the same state. *)
Lemma HeuristicState_ext a b :
  E_of a = E_of b -> e_of a = e_of b -> N_of a = N_of b ->
  memory a = memory b -> reserved a = reserved b -> a = b.
Proof.
  destruct a as [[] ? ? ? ? ? ? ? ? ? ? ? ? ? ? ? ? ? ? ? ? ? ? ? ? ? ? ? ? ? ? ? ?].
  destruct b as [[] ? ? ? ? ? ? ? ? ? ? ? ? ? ? ? ? ? ? ? ? ? ? ? ? ? ? ? ? ? ? ? ?].
  unfold E_of, e_of, N_of, memory, reserved. cbn.
  intros HE He HN Hm Hr.
  injection HE as -> -> -> ->. injection He as -> -> -> -> -> -> -> -> ->.
  injection HN as -> -> ->. injection Hm as -> -> -> -> -> -> -> -> -> ->.
  injection Hr as -> -> -> -> -> -> -> -> -> -> -> -> -> -> -> -> -> -> -> -> -> -> ->.
  reflexivity.
Qed.

Section Runs.

Variable G : float.
Variable QuaternionAToB : float -> float -> float -> float -> float -> float -> Quaternion.
Variables Acos Cos Sin : float -> float.
Variable FromQuaternion : float -> float -> float -> float -> float * float * float.

#[local] Abbreviation Compute' := (Compute G QuaternionAToB Acos Cos Sin).
#[local] Abbreviation locals' := (locals QuaternionAToB Acos Cos Sin).
#[local] Abbreviation smoothing' := (smoothing G).
#[local] Abbreviation run' := (run G QuaternionAToB Acos Cos Sin).
#[local] Abbreviation attitude := (CalcRollPitchHeading FromQuaternion).

Lemma run_memory_ext ms : forall a b,
  memory a = memory b ->
  map memory (run' a ms) = map memory (run' b ms) /\
  map E_of (run' a ms) = map E_of (run' b ms) /\
  map attitude (run' a ms) = map attitude (run' b ms).
Proof.
  induction ms as [ | m ms IH ]; intros a b H.
  - repeat split; reflexivity.
  - destruct (Compute_memory_ext G QuaternionAToB Acos Cos Sin a b m H) as (Hm & HE).
    destruct (IH _ _ Hm) as (IHm & IHE & IHa).
    cbn [run map]. rewrite Hm, HE, IHm, IHE, IHa.
    rewrite (attitude_E FromQuaternion _ _ HE). repeat split; reflexivity.
Qed.

(** With an invalid velocity the memory and the orientation after the call
    are those that the measurement alone decides. *)
Lemma Compute_invalid_velocity_ext a b m :
  Measurement.WValid m = false ->
  memory (Compute' a m) = memory (Compute' b m) /\
  E_of (Compute' a m) = E_of (Compute' b m).
Proof.
  intro Hw. split.
  - rewrite !Compute_memory. unfold smoothing. rewrite Hw. reflexivity.
  - rewrite !Compute_E. f_equal. unfold smoothing. rewrite Hw.
    apply locals_ext; reflexivity.
Qed.

(** X7: the orientation, the attitude read from it and the filter memory along
    a replay depend on the starting state through its filter memory ([Z],
    previous velocity, smoothed velocity and time) only: two estimators that
    differ in orientation, north vector, rotation matrix, flags or reserved
    accumulators give the same outputs. *)
Theorem run_memory_only (a b : HeuristicState) (ms : list Measurement.t) :
  memory a = memory b ->
  map memory (run' a ms) = map memory (run' b ms) /\
  map E_of (run' a ms) = map E_of (run' b ms) /\
  map attitude (run' a ms) = map attitude (run' b ms).
Proof. apply run_memory_ext. Qed.

(** X8: a sample with [WValid] false erases the history: whatever the two
    states before it, the orientations, the attitudes and the filter
    memories from that call on are the same. *)
Theorem run_invalid_velocity_forgets
  (a b : HeuristicState) (m : Measurement.t) (ms : list Measurement.t) :
  Measurement.WValid m = false ->
  map memory (run' a (m :: ms)) = map memory (run' b (m :: ms)) /\
  map E_of (run' a (m :: ms)) = map E_of (run' b (m :: ms)) /\
  map attitude (run' a (m :: ms)) = map attitude (run' b (m :: ms)).
Proof.
  intro Hw.
  destruct (Compute_invalid_velocity_ext a b m Hw) as (Hm & HE).
  destruct (run_memory_ext ms _ _ Hm) as (IHm & IHE & IHa).
  cbn [run map]. rewrite Hm, HE, IHm, IHE, IHa.
  rewrite (attitude_E FromQuaternion _ _ HE). repeat split; reflexivity.
Qed.

(** X9: a sample with [WValid] false is idempotent: feeding it a second time
    leaves the state as the first call left it. *)
Theorem Compute_invalid_velocity_idempotent (s : HeuristicState) (m : Measurement.t) :
  Measurement.WValid m = false ->
  Compute' (Compute' s m) m = Compute' s m.
Proof.
  intro Hw.
  destruct (Compute_invalid_velocity_ext (Compute' s m) s m Hw) as (Hm & HE).
  assert (He : e_of (Compute' (Compute' s m) m) = e_of (Compute' s m))
    by apply Compute_e.
  apply HeuristicState_ext; try assumption.
  - rewrite (Compute_N G QuaternionAToB Acos Cos Sin (Compute' s m) m).
    destruct (Measurement.MValid m) eqn:Hv; [ | reflexivity ].
    rewrite (Compute_N G QuaternionAToB Acos Cos Sin s m), Hv.
    assert (Hs : e_of (Compute' s m) = e_of s) by apply Compute_e.
    unfold e_of in Hs.
    assert (R1 := f_equal (fun w : Vector * Vector * Vector => fst (fst w)) Hs).
    assert (R2 := f_equal (fun w : Vector * Vector * Vector => snd (fst w)) Hs).
    assert (R3 := f_equal (fun w : Vector * Vector * Vector => snd w) Hs).
    cbn [fst snd] in R1, R2, R3.
    rewrite (f_equal (fun w : Vector => fst (fst w)) R1 : State.e11 _ = State.e11 _).
    rewrite (f_equal (fun w : Vector => snd (fst w)) R1 : State.e12 _ = State.e12 _).
    rewrite (f_equal (fun w : Vector => snd w) R1 : State.e13 _ = State.e13 _).
    rewrite (f_equal (fun w : Vector => fst (fst w)) R2 : State.e21 _ = State.e21 _).
    rewrite (f_equal (fun w : Vector => snd (fst w)) R2 : State.e22 _ = State.e22 _).
    rewrite (f_equal (fun w : Vector => snd w) R2 : State.e23 _ = State.e23 _).
    rewrite (f_equal (fun w : Vector => fst (fst w)) R3 : State.e31 _ = State.e31 _).
    rewrite (f_equal (fun w : Vector => snd (fst w)) R3 : State.e32 _ = State.e32 _).
    rewrite (f_equal (fun w : Vector => snd w) R3 : State.e33 _ = State.e33 _).
    reflexivity.
  - rewrite !Compute_reserved. reflexivity.
Qed.

End Runs.

(** ** Not-a-number in the averages, and the north vector *)

Section Degenerate.

Variable G : float.
Variable QuaternionAToB : float -> float -> float -> float -> float -> float -> Quaternion.
Variables Acos Cos Sin : float -> float.
Variable FromQuaternion : float -> float -> float -> float -> float * float * float.

#[local] Abbreviation Compute' := (Compute G QuaternionAToB Acos Cos Sin).
#[local] Abbreviation smoothing' := (smoothing G).
#[local] Abbreviation run' := (run G QuaternionAToB Acos Cos Sin).
#[local] Abbreviation attitude := (CalcRollPitchHeading FromQuaternion).

(** A valid sample folds the old average into the new one: a NaN stays. *)
Lemma Compute_nan_average k s m :
  Measurement.WValid m = true ->
  is_nan (average k s) = true -> is_nan (average k (Compute' s m)) = true.
Proof.
  intros Hw Hk. unfold average in *.
  destruct (Compute_Z G QuaternionAToB Acos Cos Sin s m) as (-> & -> & ->).
  destruct (Compute_WS G QuaternionAToB Acos Cos Sin s m) as (-> & -> & ->).
  unfold smoothing, accelerations, moving_averages, startup. rewrite Hw.
  destruct ((W10 s =? 0) && (W20 s =? 0) && (W30 s =? 0));
    do 6 (destruct k as [ | k ];
          [ cbn [nth] in Hk |- *; cbn; apply add_nan_r, mul_nan_r, Hk | ]);
    destruct k; discriminate Hk.
Qed.

(** X10: a NaN in one of the exponential averages [Z1, Z2, Z3, W1S, W2S, W3S]
    stays there through every call whose [WValid] is true. *)
Theorem run_nan_persists (k : nat) (s : HeuristicState) (ms : list Measurement.t) :
  Forall (fun m => Measurement.WValid m = true) ms ->
  is_nan (average k s) = true ->
  Forall (fun s' => is_nan (average k s') = true) (run' s ms).
Proof.
  intro Hms. revert s. induction Hms as [ | m ms Hw _ IH ]; intros s Hk; cbn [run].
  - constructor.
  - assert (Hk' := Compute_nan_average k s m Hw Hk).
    constructor; [ exact Hk' | apply IH, Hk' ].
Qed.

(** X11: on the startup path (previous velocity all zero, finite velocity in
    the measurement), a valid sample stamped with the very time the state
    holds, as the time [0] of a fresh estimator, makes [Z1], [Z2] and [Z3]
    NaN, whatever [G] is; [Valid] reports [true] on that state all the same,
    and the uncertainties are zero. *)
Theorem Compute_same_time_nan (s : HeuristicState) (m : Measurement.t) :
  Measurement.WValid m = true ->
  is_zero_vector (W10 s) (W20 s) (W30 s) = true ->
  is_finite (Measurement.W1 m) = true ->
  is_finite (Measurement.W2 m) = true ->
  is_finite (Measurement.W3 m) = true ->
  is_finite (Measurement.T m) = true ->
  State.T (State s) = Measurement.T m ->
  is_nan (Z1 (Compute' s m)) = true /\
  is_nan (Z2 (Compute' s m)) = true /\
  is_nan (Z3 (Compute' s m)) = true /\
  Valid (Compute' s m) = true /\
  CalcRollPitchHeadingUncertainty (Compute' s m) = (0, 0, 0).
Proof.
  intros Hw Hz F1 F2 F3 FT HT.
  destruct (Compute_Z G QuaternionAToB Acos Cos Sin s m) as (-> & -> & ->).
  unfold smoothing, accelerations, moving_averages, startup.
  unfold is_zero_vector in Hz. rewrite Hw, Hz. cbn.
  rewrite HT, (sub_diag_finite _ FT).
  rewrite (sub_diag_finite _ F1), (sub_diag_finite _ F2), (sub_diag_finite _ F3).
  repeat split; apply add_nan_l, div_nan_l; reflexivity.
Qed.

(** With rotation-matrix elements that are all zero, a finite magnetometer
    vector is projected onto a zero vector. *)
Lemma Compute_north_zero s m :
  is_zero33 (e_of s) = true -> is_zero3 (N_of s) = true ->
  finite_magnetometer m = true ->
  is_zero33 (e_of (Compute' s m)) = true /\ is_zero3 (N_of (Compute' s m)) = true.
Proof.
  intros He HN Hm. split.
  - now rewrite Compute_e.
  - rewrite Compute_N. destruct (Measurement.MValid m); [ | exact HN ].
    unfold finite_magnetometer in Hm. unfold is_zero33, e_of, is_zero3, is_zero_vector in He.
    repeat match goal with
           | H : _ && _ = true |- _ => apply andb_prop in H; destruct H
           end.
    unfold is_zero3, is_zero_vector.
    repeat (apply andb_true_intro; split);
      repeat apply add_zeros; apply mul_zero_r_finite; assumption.
Qed.

(** X12: [Compute] never writes the rotation-matrix elements, so from a
    freshly initialised estimator they stay zero and, as long as the
    magnetometer components of the measurements are finite, so does the
    north vector [N1, N2, N3] after every call. *)
Theorem run_fresh_north_zero (m0 : Measurement.t) (ms : list Measurement.t) :
  Forall (fun m => finite_magnetometer m = true) ms ->
  Forall (fun s => is_zero33 (e_of s) = true /\ is_zero3 (N_of s) = true)
         (run' (InitializeHeuristic m0) ms).
Proof.
  intro Hms.
  assert (H0 : is_zero33 (e_of (InitializeHeuristic m0)) = true /\
               is_zero3 (N_of (InitializeHeuristic m0)) = true) by (split; reflexivity).
  revert H0. generalize (InitializeHeuristic m0).
  induction Hms as [ | m ms Hm _ IH ]; intros s (He & HN); cbn [run].
  - constructor.
  - assert (H' := Compute_north_zero s m He HN Hm).
    constructor; [ exact H' | apply IH, H' ].
Qed.

Lemma run_without_magnetometer_ext ms : forall a b,
  memory a = memory b ->
  map E_of (run' a (map without_magnetometer ms)) = map E_of (run' b ms) /\
  map attitude (run' a (map without_magnetometer ms)) = map attitude (run' b ms).
Proof.
  induction ms as [ | m ms IH ]; intros a b H.
  - split; reflexivity.
  - destruct (Compute_memory_ext G QuaternionAToB Acos Cos Sin a b
                (without_magnetometer m) H) as (Hm & HE).
    assert (HE' : E_of (Compute' b (without_magnetometer m)) = E_of (Compute' b m))
      by apply Compute_E_ignores_magnetometer.
    assert (Hm' : memory (Compute' b (without_magnetometer m)) = memory (Compute' b m))
      by (rewrite !Compute_memory; reflexivity).
    rewrite HE' in HE. rewrite Hm' in Hm.
    destruct (IH _ _ Hm) as (IHE & IHa).
    cbn [run map]. rewrite HE, IHE, IHa.
    rewrite (attitude_E FromQuaternion _ _ HE). split; reflexivity.
Qed.

(** X13: the magnetometer has no part in the attitude: blanking the
    magnetometer block of every measurement of a replay changes neither the
    orientations nor the roll, pitch and heading read after each call. *)
Theorem run_without_magnetometer (s : HeuristicState) (ms : list Measurement.t) :
  map E_of (run' s (map without_magnetometer ms)) = map E_of (run' s ms) /\
  map attitude (run' s (map without_magnetometer ms)) = map attitude (run' s ms).
Proof. apply run_without_magnetometer_ext. reflexivity. Qed.

End Degenerate.

(** ** Instances of the replay properties on the sample inputs *)

Lemma run_memory_only_witness :
  memory s_turn = memory s_turn_rotated /\
  E_of s_turn <> E_of s_turn_rotated /\
  map E_of (run G_sample QuaternionAToB_sample Acos_sample Cos_sample Sin_sample
              s_turn [m_turn; m_invalid]) =
  map E_of (run G_sample QuaternionAToB_sample Acos_sample Cos_sample Sin_sample
              s_turn_rotated [m_turn; m_invalid]).
Proof.
  split; [ reflexivity | ]. split.
  - intro H. apply (f_equal (fun q => Prim2SF (scalar_part q))) in H.
    vm_compute in H. discriminate H.
  - apply (run_memory_only G_sample QuaternionAToB_sample Acos_sample Cos_sample
             Sin_sample FromQuaternion_sample s_turn s_turn_rotated
             [m_turn; m_invalid] eq_refl).
Defined.

Lemma run_invalid_velocity_forgets_witness :
  Measurement.WValid m_invalid = false /\
  memory s_busy <> memory new_HeuristicState /\
  map E_of (run G_sample QuaternionAToB_sample Acos_sample Cos_sample Sin_sample
              s_busy [m_invalid; m_first]) =
  map E_of (run G_sample QuaternionAToB_sample Acos_sample Cos_sample Sin_sample
              new_HeuristicState [m_invalid; m_first]).
Proof.
  split; [ reflexivity | ]. split.
  - intro H. apply (f_equal (fun l => Prim2SF (nth 0 l 0))) in H.
    vm_compute in H. discriminate H.
  - apply (run_invalid_velocity_forgets G_sample QuaternionAToB_sample Acos_sample
             Cos_sample Sin_sample FromQuaternion_sample s_busy new_HeuristicState
             m_invalid [m_first] eq_refl).
Defined.

Lemma Compute_invalid_velocity_idempotent_witness :
  Measurement.WValid m_mag = false /\
  Compute_sample (Compute_sample s_busy m_mag) m_mag = Compute_sample s_busy m_mag.
Proof.
  split; [ reflexivity | ].
  apply (Compute_invalid_velocity_idempotent G_sample QuaternionAToB_sample Acos_sample
           Cos_sample Sin_sample s_busy m_mag eq_refl).
Defined.

Lemma run_nan_persists_witness :
  is_nan (Z1 s_nan) = true /\
  Forall (fun s' => is_nan (average 0 s') = true)
         (run G_sample QuaternionAToB_sample Acos_sample Cos_sample Sin_sample
            s_nan [m_first; m_climb]).
Proof.
  split; [ reflexivity | ].
  apply (run_nan_persists G_sample QuaternionAToB_sample Acos_sample Cos_sample
           Sin_sample 0 s_nan [m_first; m_climb]).
  - repeat constructor.
  - reflexivity.
Defined.

Lemma Compute_same_time_nan_witness :
  Measurement.WValid m_same_time = true /\
  State.T (State new_HeuristicState) = Measurement.T m_same_time /\
  is_nan (Z1 (Compute_sample new_HeuristicState m_same_time)) = true.
Proof.
  split; [ reflexivity | ]. split; [ reflexivity | ].
  apply (Compute_same_time_nan G_sample QuaternionAToB_sample Acos_sample Cos_sample
           Sin_sample new_HeuristicState m_same_time
           eq_refl eq_refl eq_refl eq_refl eq_refl eq_refl eq_refl).
Defined.

Lemma run_fresh_north_zero_witness :
  Measurement.MValid m_mag = true /\
  Forall (fun s => is_zero33 (e_of s) = true /\ is_zero3 (N_of s) = true)
         (run G_sample QuaternionAToB_sample Acos_sample Cos_sample Sin_sample
            (InitializeHeuristic m_mag) [m_mag; m_invalid]).
Proof.
  split; [ reflexivity | ].
  apply (run_fresh_north_zero G_sample QuaternionAToB_sample Acos_sample Cos_sample
           Sin_sample m_mag [m_mag; m_invalid]).
  repeat constructor.
Defined.

(** ** Constant velocity *)

(** A zero divided by a number that is neither NaN nor zero is a zero. *)
Lemma div_zero_l (x y : float) :
  (x =? 0) = true -> is_nan y = false -> (y =? 0) = false -> (x / y =? 0) = true.
Proof.
  intros Hx Hn Hy.
  assert (Hn' : Prim2SF y <> S754_nan).
  { intro E. apply is_nan_Prim2SF in E. congruence. }
  rewrite FloatAxioms.eqb_spec in Hx, Hy |- *. rewrite div_spec.
  change (Prim2SF 0) with (S754_zero false) in *.
  destruct (Prim2SF x) as [sx | sx | | sx mx ex]; try discriminate Hx;
    try (destruct sx; discriminate Hx).
  destruct (Prim2SF y) as [sy | sy | | sy my ey]; try discriminate Hy;
    try congruence; reflexivity.
Qed.

Section Cruise.

Variable G : float.
Variable QuaternionAToB : float -> float -> float -> float -> float -> float -> Quaternion.
Variables Acos Cos Sin : float -> float.
Variables w1 w2 w3 : float.

Hypothesis G_not_nan : is_nan G = false.
Hypothesis G_not_zero : (G =? 0) = false.
Hypothesis w1_finite : is_finite w1 = true.
Hypothesis w2_finite : is_finite w2 = true.
Hypothesis w3_finite : is_finite w3 = true.

#[local] Abbreviation Compute' := (Compute G QuaternionAToB Acos Cos Sin).
#[local] Abbreviation run' := (run G QuaternionAToB Acos Cos Sin).

(** The measurement is valid and carries the velocity [(w1, w2, w3)]. *)
Let cruising (m : Measurement.t) : Prop :=
  Measurement.WValid m = true /\
  Measurement.W1 m = w1 /\ Measurement.W2 m = w2 /\ Measurement.W3 m = w3.

(** The accelerations are zero and the previous velocity is either unset or
    the cruise velocity. *)
Let steady (s : HeuristicState) : Prop :=
  is_zero_vector (Z1 s) (Z2 s) (Z3 s) = true /\
  (is_zero_vector (W10 s) (W20 s) (W30 s) = true \/
   (W10 s = w1 /\ W20 s = w2 /\ W30 s = w3)).

Lemma zero_difference_term (d z : float) :
  is_nan d = false -> (d =? 0) = false -> (z =? 0) = true ->
  (KSHORT * 0 / d / G + (1 - KSHORT) * z =? 0) = true.
Proof.
  intros Hn Hd Hz. apply add_zeros.
  - apply div_zero_l; [ | exact G_not_nan | exact G_not_zero ].
    apply div_zero_l; [ reflexivity | exact Hn | exact Hd ].
  - apply mul_zero_r_finite; [ reflexivity | exact Hz ].
Qed.

Lemma Compute_steady s m :
  steady s -> cruising m ->
  is_nan (Measurement.T m - State.T (State s)) = false ->
  (Measurement.T m - State.T (State s) =? 0) = false ->
  steady (Compute' s m).
Proof.
  intros (HZ & HW) (Hw & E1 & E2 & E3) Hn Hd.
  unfold is_zero_vector in HZ.
  apply andb_prop in HZ. destruct HZ as [HZ HZ3].
  apply andb_prop in HZ. destruct HZ as [HZ1 HZ2].
  split.
  - destruct (Compute_Z G QuaternionAToB Acos Cos Sin s m) as (-> & -> & ->).
    unfold smoothing, accelerations, moving_averages, startup. rewrite Hw.
    destruct HW as [HW | (F1 & F2 & F3)].
    + unfold is_zero_vector in HW. rewrite HW. cbn. rewrite E1, E2, E3.
      rewrite (sub_diag_finite _ w1_finite), (sub_diag_finite _ w2_finite),
        (sub_diag_finite _ w3_finite).
      unfold is_zero_vector. rewrite !zero_difference_term by assumption. reflexivity.
    + destruct ((W10 s =? 0) && (W20 s =? 0) && (W30 s =? 0)); cbn;
        rewrite ?F1, ?F2, ?F3, E1, E2, E3;
        rewrite (sub_diag_finite _ w1_finite), (sub_diag_finite _ w2_finite),
          (sub_diag_finite _ w3_finite);
        unfold is_zero_vector; rewrite !zero_difference_term by assumption; reflexivity.
  - right. destruct (Compute_W0 G QuaternionAToB Acos Cos Sin s m) as (-> & -> & ->).
    repeat split; assumption.
Qed.

Lemma run_steady ms : forall s,
  steady s -> Forall cruising ms -> distinct_times (State.T (State s)) ms = true ->
  Forall (fun s' => is_zero_vector (Z1 s') (Z2 s') (Z3 s') = true) (run' s ms).
Proof.
  induction ms as [ | m ms IH ]; intros s Hs Hms Ht; cbn [run].
  - constructor.
  - inversion Hms as [ | ? ? Hm Hms' ]; subst.
    cbn [distinct_times] in Ht.
    apply andb_prop in Ht. destruct Ht as [Ht Ht'].
    apply andb_prop in Ht. destruct Ht as [Hn Hd].
    apply negb_true_iff in Hn, Hd.
    assert (Hs' := Compute_steady s m Hs Hm Hn Hd).
    constructor; [ exact (proj1 Hs') | ].
    apply IH; [ exact Hs' | exact Hms' | ].
    now rewrite Compute_T.
Qed.

(** X14: at constant velocity no acceleration builds up: from a freshly
    initialised estimator, through valid samples that all carry one finite
    velocity and whose times differ from one to the next (the first from
    [0]), [Z1], [Z2] and [Z3] are zero after every call, provided [G] is
    neither NaN nor zero. *)
Theorem run_constant_velocity (m0 : Measurement.t) (ms : list Measurement.t) :
  Forall (fun m => Measurement.WValid m = true /\ Measurement.W1 m = w1 /\
                   Measurement.W2 m = w2 /\ Measurement.W3 m = w3) ms ->
  distinct_times 0 ms = true ->
  Forall (fun s => is_zero_vector (Z1 s) (Z2 s) (Z3 s) = true)
         (run' (InitializeHeuristic m0) ms).
Proof.
  intros Hms Ht. apply run_steady; [ | exact Hms | exact Ht ].
  split; [ reflexivity | left; reflexivity ].
Qed.

End Cruise.

Lemma run_constant_velocity_witness :
  distinct_times 0 [m_climb; m_climb_next] = true /\
  Forall (fun s => is_zero_vector (Z1 s) (Z2 s) (Z3 s) = true)
         (run G_sample QuaternionAToB_sample Acos_sample Cos_sample Sin_sample
            (InitializeHeuristic m_mag) [m_climb; m_climb_next]).
Proof.
  split; [ reflexivity | ].
  apply (run_constant_velocity G_sample QuaternionAToB_sample Acos_sample Cos_sample
           Sin_sample 3 0 4 eq_refl eq_refl eq_refl eq_refl eq_refl m_mag
           [m_climb; m_climb_next]).
  - repeat constructor.
  - reflexivity.
Defined.

(** ** What a replay keeps, and what an invalid velocity leaves to decide *)

Section Kept.

Variable G : float.
Variable QuaternionAToB : float -> float -> float -> float -> float -> float -> Quaternion.
Variables Acos Cos Sin : float -> float.
Variable FromQuaternion : float -> float -> float -> float -> float * float * float.

#[local] Abbreviation Compute' := (Compute G QuaternionAToB Acos Cos Sin).
#[local] Abbreviation run' := (run G QuaternionAToB Acos Cos Sin).
#[local] Abbreviation attitude := (CalcRollPitchHeading FromQuaternion).

(** X15: however many calls are made, the rotation-matrix elements, the two
    flags and the reserved accumulators of every state along the way are
    those of the starting state. *)
Theorem run_keeps (s : HeuristicState) (ms : list Measurement.t) :
  Forall (fun s' => e_of s' = e_of s /\ reserved s' = reserved s) (run' s ms).
Proof.
  assert (H : forall a, e_of a = e_of s -> reserved a = reserved s ->
            Forall (fun s' => e_of s' = e_of s /\ reserved s' = reserved s) (run' a ms)).
  { induction ms as [ | m ms IH ]; intros a He Hr; cbn [run].
    - constructor.
    - assert (He' : e_of (Compute' a m) = e_of s) by now rewrite Compute_e.
      assert (Hr' : reserved (Compute' a m) = reserved s) by now rewrite Compute_reserved.
      constructor; [ split; assumption | apply IH; assumption ]. }
  apply H; reflexivity.
Qed.

(** X16: with [WValid] false the orientation stored by [Compute], and the
    attitude read from it, are decided by the accelerometer reading alone:
    two calls on any two states, with any velocities, times and magnetometer
    data, give the same orientation when their accelerometer readings are
    the same. *)
Theorem Compute_invalid_velocity_accelerometer_only
  (a b : HeuristicState) (m m' : Measurement.t) :
  Measurement.WValid m = false -> Measurement.WValid m' = false ->
  Measurement.A1 m = Measurement.A1 m' ->
  Measurement.A2 m = Measurement.A2 m' ->
  Measurement.A3 m = Measurement.A3 m' ->
  E_of (Compute' a m) = E_of (Compute' b m') /\
  attitude (Compute' a m) = attitude (Compute' b m').
Proof.
  intros Hw Hw' H1 H2 H3.
  assert (HE : E_of (Compute' a m) = E_of (Compute' b m')).
  { rewrite !Compute_E. f_equal. unfold smoothing, locals.
    rewrite Hw, Hw', H1, H2, H3. reflexivity. }
  split; [ exact HE | apply attitude_E, HE ].
Qed.

End Kept.

Lemma Compute_invalid_velocity_accelerometer_only_witness :
  Measurement.WValid m_invalid = false /\
  Measurement.WValid m_mag = false /\
  Measurement.W1 m_invalid <> Measurement.W1 m_mag /\
  E_of (Compute_sample s_busy m_invalid) = E_of (Compute_sample new_HeuristicState m_mag).
Proof.
  split; [ reflexivity | ]. split; [ reflexivity | ]. split; [ floats_differ | ].
  apply (Compute_invalid_velocity_accelerometer_only G_sample QuaternionAToB_sample
           Acos_sample Cos_sample Sin_sample FromQuaternion_sample
           s_busy new_HeuristicState m_invalid m_mag eq_refl eq_refl eq_refl eq_refl eq_refl).
Defined.
